(** * A procurement back end on Express and SQLite (server.js)

    The program is one file: a schema of four tables, three promise wrappers
    around the store ([dbRun], [dbGet], [dbAll]), one error-handling
    middleware and eight route handlers, registered on an Express
    application in that order.

    The embedding keeps that shape.
    - The store is the connection: four tables and the foreign_keys pragma;
      a table is its rows in rowid order with its AUTOINCREMENT counter.
      Each SQL text of the program is a constructor of [statement] or
      [query] and gets its meaning in [dbRun] and [select].  Columns are kept
      at the storage class their declared affinity gives them (INTEGER, REAL,
      TEXT) or NULL, and request fields are taken at the same classes; [None]
      is NULL, which is also what the driver binds for a field that is
      missing from the body.  A REAL is a rational number: the finite doubles
      are rationals and SQLite orders them as such.
    - A handler is a computation in [io], a state-and-rejection monad over the
      store: [await] is bind, a rejected promise skips the rest of the [try]
      block, and [try_catch] turns it into [next(error)].
    - The application is the list of layers in registration order, and
      [dispatch] walks it the way Express's router does.
    - What the program calls but does not contain is gathered in [env]: the
      two bcrypt primitives, the clock behind CURRENT_TIMESTAMP and the
      reading of a text parameter as an integer by SQLite.  Every theorem
      holds for every [env].

    Not modelled: failures of the store that are not constraint violations
    (I/O, an exhausted rowid space), request fields of another JavaScript
    type than their column's, the interleaving of concurrent requests (a
    handler runs from its first statement to its response in one step),
    response headers, and the HEAD method. *)

From Stdlib Require Import ZArith QArith List String Bool Lia.
From Stdlib Require Import Permutation Sorted DecimalString.
Import ListNotations.

Open Scope Z_scope.
Open Scope string_scope.

(** ** Values *)

(** What the driver binds to a [?] that is compared with an INTEGER column:
    nothing (NULL), a JavaScript integer, or a string. *)
Inductive param :=
| NULL
| INTEGER (z : Z)
| TEXT (s : string).

(** A JSON document, as passed to [res.json].  Objects keep their key order. *)
#[local] Unset Elimination Schemes.
Inductive JSON :=
| Jnull
| Jnumber (q : Q)
| Jstring (s : string)
| Jarray (items : list JSON)
| Jobject (members : list (string * JSON)).
#[local] Set Elimination Schemes.

Definition Jint (z : Z) : JSON := Jnumber (inject_Z z).

Definition Jopt {A : Type} (f : A -> JSON) (o : option A) : JSON :=
  match o with
  | Some a => f a
  | None => Jnull
  end.

(** A JavaScript [Error]: its [message], and the [status] property that
    body-parser sets on its errors and SQLite and bcrypt errors do not have. *)
Record error := { err_message : string; err_status : option Z }.

(** The collaborators of the program. *)
Record env := {
  (** [bcrypt.hash(data, 10)] on a string, with the salt drawn by this call *)
  hash : string -> string;
  (** [bcrypt.compare(data, encrypted)] on two strings *)
  compare : string -> string -> bool;
  (** the store's clock, as CURRENT_TIMESTAMP prints it *)
  CURRENT_TIMESTAMP : string;
  (** the integer a text parameter denotes when SQLite applies numeric
      affinity to it in a comparison with an INTEGER column, if it denotes
      one *)
  integer_of_text : string -> option Z
}.

(** ** Storage schema *)

Module User.
Record t := {
  id : Z;
  name : option string;
  email : option string;
  password : option string
}.

Definition to_json (u : t) : JSON :=
  Jobject [("id", Jint (id u)); ("name", Jopt Jstring (name u));
           ("email", Jopt Jstring (email u));
           ("password", Jopt Jstring (password u))].
End User.

Module Supplier.
Record t := {
  id : Z;
  name : option string;
  registrationNumber : option string;
  address : option string
}.
End Supplier.

Module Rfp.
Record t := {
  id : Z;
  title : option string;
  description : option string;
  createdAt : option string
}.

Definition to_json (r : t) : JSON :=
  Jobject [("id", Jint (id r)); ("title", Jopt Jstring (title r));
           ("description", Jopt Jstring (description r));
           ("createdAt", Jopt Jstring (createdAt r))].
End Rfp.

Module Bid.
Record t := {
  id : Z;
  rfpId : option Z;
  supplierId : option Z;
  amount : option Q;
  documents : option string;
  status : option string;
  createdAt : option string
}.

(** [SET status = ?] on one row. *)
Definition set_status (s : option string) (b : t) : t :=
  {| id := id b; rfpId := rfpId b; supplierId := supplierId b;
     amount := amount b; documents := documents b; status := s;
     createdAt := createdAt b |}.

Definition to_json (b : t) : JSON :=
  Jobject [("id", Jint (id b)); ("rfpId", Jopt Jint (rfpId b));
           ("supplierId", Jopt Jint (supplierId b));
           ("amount", Jopt Jnumber (amount b));
           ("documents", Jopt Jstring (documents b));
           ("status", Jopt Jstring (status b));
           ("createdAt", Jopt Jstring (createdAt b))].
End Bid.

(** A table: its rows in rowid order and its entry in sqlite_sequence. *)
Record table (R : Type) := { rows : list R; seq : Z }.
Arguments rows {R} _.
Arguments seq {R} _.

(** The connection: the four tables, and whether it enforces the FOREIGN KEY
    clauses of the schema (PRAGMA foreign_keys, off unless a statement turns
    it on). *)
Record db := {
  users : table User.t;
  suppliers : table Supplier.t;
  rfps : table Rfp.t;
  bids : table Bid.t;
  foreign_keys : bool
}.

Definition set_users (t : table User.t) (d : db) : db :=
  {| users := t; suppliers := suppliers d; rfps := rfps d; bids := bids d;
     foreign_keys := foreign_keys d |}.
Definition set_suppliers (t : table Supplier.t) (d : db) : db :=
  {| users := users d; suppliers := t; rfps := rfps d; bids := bids d;
     foreign_keys := foreign_keys d |}.
Definition set_rfps (t : table Rfp.t) (d : db) : db :=
  {| users := users d; suppliers := suppliers d; rfps := t; bids := bids d;
     foreign_keys := foreign_keys d |}.
Definition set_bids (t : table Bid.t) (d : db) : db :=
  {| users := users d; suppliers := suppliers d; rfps := rfps d; bids := t;
     foreign_keys := foreign_keys d |}.

Definition empty_table {R : Type} : table R := {| rows := []; seq := 0 |}.

(** A connection to a fresh file after [initDb]: CREATE TABLE IF NOT EXISTS,
    four times, and no pragma. *)
Definition initDb : db :=
  {| users := empty_table; suppliers := empty_table;
     rfps := empty_table; bids := empty_table; foreign_keys := false |}.

(** INTEGER PRIMARY KEY AUTOINCREMENT: one more than the largest rowid the
    table holds or has ever handed out. *)
Definition largest (ids : list Z) : Z := fold_right Z.max 0 ids.

Definition new_rowid {R : Type} (id : R -> Z) (t : table R) : Z :=
  Z.max (seq t) (largest (map id (rows t))) + 1.

Definition append {R : Type} (id : R -> Z) (mk : Z -> R) (t : table R)
  : Z * table R :=
  let n := new_rowid id t in
  (n, {| rows := rows t ++ [mk n]; seq := n |}).

(** [col = ?] on a TEXT column: NULL equals nothing, strings compare byte by
    byte (the BINARY collation). *)
Definition text_eq (col p : option string) : bool :=
  match col, p with
  | Some a, Some b => String.eqb a b
  | _, _ => false
  end.

(** A UNIQUE text column refuses a value some row already holds; any number
    of rows may hold NULL. *)
Definition taken {R : Type} (col : R -> option string) (v : option string)
  (t : table R) : bool :=
  existsb (fun r => text_eq (col r) v) (rows t).

(** FOREIGN KEY (col) REFERENCES t (id): a NULL refers to nothing and is let
    through, any other value must be the id of a row of [t]. *)
Definition refers {R : Type} (id : R -> Z) (v : option Z) (t : table R) : bool :=
  match v with
  | None => true
  | Some z => existsb (fun r => Z.eqb (id r) z) (rows t)
  end.

(** [rfpId = ?]: the column has INTEGER affinity, so a text parameter is read
    as a number first. *)
Definition rfpId_eq (e : env) (col : option Z) (p : param) : bool :=
  match col, p with
  | Some z, INTEGER z' => Z.eqb z z'
  | Some z, TEXT s =>
      match integer_of_text e s with
      | Some z' => Z.eqb z z'
      | None => false
      end
  | _, _ => false
  end.

(** ORDER BY amount ASC on a REAL column: NULL sorts before every number,
    numbers by value. *)
Definition amount_le (a b : option Q) : bool :=
  match a, b with
  | None, _ => true
  | Some _, None => false
  | Some x, Some y => Qle_bool x y
  end.

Fixpoint insert_by_amount (b : Bid.t) (l : list Bid.t) : list Bid.t :=
  match l with
  | [] => [b]
  | c :: l' =>
      if amount_le (Bid.amount b) (Bid.amount c) then b :: c :: l'
      else c :: insert_by_amount b l'
  end.

(** SQLite leaves the order of rows with equal sort keys open; here they
    keep their rowid order.  No theorem below depends on that choice. *)
Definition order_by_amount (l : list Bid.t) : list Bid.t :=
  fold_right insert_by_amount [] l.

(** ** Storage access layer *)

(** The outcome of a promise. *)
Inductive result (A : Type) :=
| resolve (a : A)
| reject (e : error).
Arguments resolve {A} a.
Arguments reject {A} e.

(** An asynchronous computation over the shared connection. *)
Definition io (A : Type) : Type := db -> result A * db.

Definition ret {A : Type} (a : A) : io A := fun d => (resolve a, d).

Definition bind {A B : Type} (m : io A) (k : A -> io B) : io B :=
  fun d =>
    match m d with
    | (resolve a, d') => k a d'
    | (reject e, d') => (reject e, d')
    end.

Definition settle {A : Type} (r : result A) : io A := fun d => (r, d).

Declare Scope io_scope.
Delimit Scope io_scope with io.
Notation "'await' x <- m ;; k" := (bind m (fun x => k))
  (at level 61, x name, m at next level, right associativity) : io_scope.
Notation "'wait' m ;; k" := (bind m (fun _ => k))
  (at level 61, m at next level, right associativity) : io_scope.

(** The statements the program passes to [dbRun]. *)
Inductive statement :=
| INSERT_INTO_users (name email password : option string)
| INSERT_INTO_suppliers (name registrationNumber address : option string)
| INSERT_INTO_rfps (title description : option string)
| INSERT_INTO_bids (rfpId supplierId : option Z) (amount : option Q)
    (documents : option string)
| UPDATE_bids_SET_status_WHERE_rfpId (status : option string) (rfpId : param).

(** The statements the program passes to [dbGet] and [dbAll], indexed by the
    type of the rows they return. *)
Inductive query : Type -> Type :=
| SELECT_users_WHERE_email (email : option string) : query User.t
| SELECT_bids_WHERE_rfpId (rfpId : param) : query Bid.t
| SELECT_rfps : query Rfp.t
| SELECT_bids_WHERE_rfpId_ORDER_BY_amount_ASC_LIMIT_1 (rfpId : param)
  : query Bid.t.

(** The statement object [dbRun] resolves to.  The driver documents [lastID]
    for INSERT and [changes] for UPDATE only; the other one is set to 0
    here and never read by the program. *)
Record this := { lastID : Z; changes : Z }.

Definition SQLITE_CONSTRAINT (what : string) : error :=
  {| err_message := "SQLITE_CONSTRAINT: " ++ what; err_status := None |}.

Definition dbRun (e : env) (s : statement) : io this :=
  fun d =>
    match s with
    | INSERT_INTO_users name email password =>
        if taken User.email email (users d)
        then (reject (SQLITE_CONSTRAINT "UNIQUE constraint failed: users.email"),
              d)
        else
          let (n, t) :=
            append User.id
              (fun n => {| User.id := n; User.name := name;
                           User.email := email; User.password := password |})
              (users d) in
          (resolve {| lastID := n; changes := 0 |}, set_users t d)
    | INSERT_INTO_suppliers name registrationNumber address =>
        if taken Supplier.registrationNumber registrationNumber (suppliers d)
        then (reject
                (SQLITE_CONSTRAINT
                   "UNIQUE constraint failed: suppliers.registrationNumber"),
              d)
        else
          let (n, t) :=
            append Supplier.id
              (fun n => {| Supplier.id := n; Supplier.name := name;
                           Supplier.registrationNumber := registrationNumber;
                           Supplier.address := address |})
              (suppliers d) in
          (resolve {| lastID := n; changes := 0 |}, set_suppliers t d)
    | INSERT_INTO_rfps title description =>
        let (n, t) :=
          append Rfp.id
            (fun n => {| Rfp.id := n; Rfp.title := title;
                         Rfp.description := description;
                         Rfp.createdAt := Some (CURRENT_TIMESTAMP e) |})
            (rfps d) in
        (resolve {| lastID := n; changes := 0 |}, set_rfps t d)
    | INSERT_INTO_bids rfpId supplierId amount documents =>
        if foreign_keys d
           && negb (refers Rfp.id rfpId (rfps d)
                    && refers Supplier.id supplierId (suppliers d))
        then (reject (SQLITE_CONSTRAINT "FOREIGN KEY constraint failed"), d)
        else
          let (n, t) :=
            append Bid.id
              (fun n => {| Bid.id := n; Bid.rfpId := rfpId;
                           Bid.supplierId := supplierId; Bid.amount := amount;
                           Bid.documents := documents;
                           Bid.status := Some "pending";
                           Bid.createdAt := Some (CURRENT_TIMESTAMP e) |})
              (bids d) in
          (resolve {| lastID := n; changes := 0 |}, set_bids t d)
    | UPDATE_bids_SET_status_WHERE_rfpId status rfpId =>
        let hit := fun b => rfpId_eq e (Bid.rfpId b) rfpId in
        let t :=
          {| rows := map (fun b => if hit b then Bid.set_status status b else b)
                         (rows (bids d));
             seq := seq (bids d) |} in
        (resolve {| lastID := 0;
                    changes := Z.of_nat (List.length (filter hit (rows (bids d)))) |},
         set_bids t d)
    end.

(** The rows a query produces, in the order the store yields them. *)
Definition select {R : Type} (e : env) (q : query R) (d : db) : list R :=
  match q in query R0 return list R0 with
  | SELECT_users_WHERE_email email =>
      filter (fun u => text_eq (User.email u) email) (rows (users d))
  | SELECT_bids_WHERE_rfpId rfpId =>
      filter (fun b => rfpId_eq e (Bid.rfpId b) rfpId) (rows (bids d))
  | SELECT_rfps => rows (rfps d)
  | SELECT_bids_WHERE_rfpId_ORDER_BY_amount_ASC_LIMIT_1 rfpId =>
      firstn 1
        (order_by_amount
           (filter (fun b => rfpId_eq e (Bid.rfpId b) rfpId) (rows (bids d))))
  end.

(** [db.get] hands over the first row of the result, or [undefined]. *)
Definition dbGet {R : Type} (e : env) (q : query R) : io (option R) :=
  fun d => (resolve (hd_error (select e q d)), d).

Definition dbAll {R : Type} (e : env) (q : query R) : io (list R) :=
  fun d => (resolve (select e q d), d).

(** ** bcrypt *)

Definition plain_error (m : string) : error :=
  {| err_message := m; err_status := None |}.

(** [bcrypt.hash(data, 10)]: rejects when [data] is missing. *)
Definition bcrypt_hash (e : env) (data : option string) : io string :=
  settle
    match data with
    | Some s => resolve (hash e s)
    | None => reject (plain_error "data and salt arguments required")
    end.

(** [bcrypt.compare(data, hash)]: rejects when either argument is missing. *)
Definition bcrypt_compare (e : env) (data encrypted : option string) : io bool :=
  settle
    match data, encrypted with
    | Some s, Some h => resolve (compare e s h)
    | _, _ => reject (plain_error "data and hash arguments required")
    end.

(** ** Requests and responses *)

Inductive verb := GET | POST | PUT | PATCH | DELETE | OPTIONS.

Definition verb_eqb (a b : verb) : bool :=
  match a, b with
  | GET, GET | POST, POST | PUT, PUT | PATCH, PATCH
  | DELETE, DELETE | OPTIONS, OPTIONS => true
  | _, _ => false
  end.

(** The fields the handlers read from [req.body]. *)
Module Body.
Record t := {
  name : option string;
  email : option string;
  password : option string;
  registrationNumber : option string;
  address : option string;
  rfpId : option Z;
  supplierId : option Z;
  amount : option Q;
  documents : option string;
  title : option string;
  description : option string
}.

(** [{}], which is also what a request without a JSON body is given. *)
Definition empty : t :=
  {| name := None; email := None; password := None;
     registrationNumber := None; address := None; rfpId := None;
     supplierId := None; amount := None; documents := None;
     title := None; description := None |}.
End Body.

(** What arrives as the body: JSON that does not parse, or an object. *)
Inductive payload :=
| malformed (why : string)
| parsed (fields : Body.t).

(** [url] holds the segments of the path as the router compares them
    (literal segments with case folded, no trailing slash). *)
Record request := { method : verb; url : list string; body : payload }.

Inductive content :=
| json (j : JSON)
| error_page (err : error)
| not_found_page (m : verb) (u : list string)
| no_content.

Record response := { status : Z; sent : content }.

(** [res.status(code).json(j)] *)
Definition res_json (code : Z) (j : JSON) : response :=
  {| status := code; sent := json j |}.

(** ** The router *)

(** How a layer ends: it answers, calls [next()], or calls [next(err)]. *)
Inductive signal :=
| send (r : response)
| next
| next_error (err : error).

Inductive segment :=
| lit (s : string)
| par (name : string).

Definition params := list (string * string).

Fixpoint match_path (p : list segment) (u : list string) : option params :=
  match p, u with
  | [], [] => Some []
  | lit s :: p', x :: u' => if String.eqb s x then match_path p' u' else None
  | par n :: p', x :: u' => option_map (cons (n, x)) (match_path p' u')
  | _, _ => None
  end.

Fixpoint lookup (k : string) (ps : params) : option string :=
  match ps with
  | [] => None
  | (k', v) :: ps' => if String.eqb k k' then Some v else lookup k ps'
  end.

Definition handler : Type := env -> Body.t -> params -> db -> signal * db.

(** [app.use(fn)] with a function of up to three arguments, [app.use(fn)]
    with a function of four, and [app.get] / [app.post]. *)
Inductive layer :=
| use (fn : request -> signal)
| use_error (fn : error -> request -> signal)
| route (m : verb) (path : list segment) (fn : handler).

(** Express's built-in last resort, reached when the stack is exhausted:
    404 when no layer answered, otherwise an HTML page for the pending error
    with the error's own status if it is a 4xx or 5xx and 500 if not. *)
Definition finalhandler (pending : option error) (req : request) : response :=
  match pending with
  | None => {| status := 404; sent := not_found_page (method req) (url req) |}
  | Some err =>
      {| status :=
           match err_status err with
           | Some s => if ((400 <=? s) && (s <? 600))%Z then s else 500
           | None => 500
           end;
         sent := error_page err |}
  end.

(** The router's loop.  It only moves forward through the stack.  While an
    error is pending, layers that are not error handlers are skipped; while
    none is pending, error handlers are skipped. *)
Fixpoint dispatch (stack : list layer) (pending : option error)
  (e : env) (req : request) (d : db) : response * db :=
  match stack with
  | [] => (finalhandler pending req, d)
  | use fn :: rest =>
      match pending with
      | Some _ => dispatch rest pending e req d
      | None =>
          match fn req with
          | send r => (r, d)
          | next => dispatch rest None e req d
          | next_error err => dispatch rest (Some err) e req d
          end
      end
  | use_error fn :: rest =>
      match pending with
      | None => dispatch rest None e req d
      | Some err =>
          match fn err req with
          | send r => (r, d)
          | next => dispatch rest None e req d
          | next_error err' => dispatch rest (Some err') e req d
          end
      end
  | route m path fn :: rest =>
      match pending with
      | Some _ => dispatch rest pending e req d
      | None =>
          if verb_eqb m (method req) then
            match match_path path (url req) with
            | None => dispatch rest None e req d
            | Some ps =>
                match body req with
                | parsed fields =>
                    match fn e fields ps d with
                    | (send r, d') => (r, d')
                    | (next, d') => dispatch rest None e req d'
                    | (next_error err, d') => dispatch rest (Some err) e req d'
                    end
                | malformed why =>
                    (* not reached in [app]: bodyParser.json comes before
                       every route and rejects such a request *)
                    dispatch rest (Some (plain_error why)) e req d
                end
            end
          else dispatch rest None e req d
      end
  end.

(** ** Middleware *)

(** [cors()]: a preflight request is answered at once, any other passes. *)
Definition cors (req : request) : signal :=
  match method req with
  | OPTIONS => send {| status := 204; sent := no_content |}
  | _ => next
  end.

(** [bodyParser.json()]: a body that does not parse is reported with
    status 400. *)
Definition bodyParser_json (req : request) : signal :=
  match body req with
  | malformed why => next_error {| err_message := why; err_status := Some 400 |}
  | parsed _ => next
  end.

(** The error handler middleware of the program. *)
Definition error_handler (err : error) (req : request) : signal :=
  send (res_json 500
          (Jobject [("message", Jstring "Internal server error");
                    ("error", Jstring (err_message err))])).

(** ** Request handlers *)

(** [try { ... } catch (error) { next(error) }] *)
Definition try_catch (m : io response) : db -> signal * db :=
  fun d =>
    match m d with
    | (resolve r, d') => (send r, d')
    | (reject err, d') => (next_error err, d')
    end.

Definition bind_integer (v : option Z) : param :=
  match v with
  | Some z => INTEGER z
  | None => NULL
  end.

Definition bind_text (v : option string) : param :=
  match v with
  | Some s => TEXT s
  | None => NULL
  end.

Definition message (m : string) : string * JSON := ("message", Jstring m).

Open Scope io_scope.

Definition register : handler := fun e body _ =>
  try_catch
    (await hashedPassword <- bcrypt_hash e (Body.password body) ;;
     await result <-
       dbRun e (INSERT_INTO_users (Body.name body) (Body.email body)
                  (Some hashedPassword)) ;;
     ret (res_json 201
            (Jobject [message "User registered successfully";
                      ("userId", Jint (lastID result))]))).

Definition login : handler := fun e body _ =>
  try_catch
    (await user <- dbGet e (SELECT_users_WHERE_email (Body.email body)) ;;
     match user with
     | None => ret (res_json 401 (Jobject [message "Invalid credentials"]))
     | Some user =>
         await result <-
           bcrypt_compare e (Body.password body) (User.password user) ;;
         if negb result
         then ret (res_json 401 (Jobject [message "Invalid credentials"]))
         else ret (res_json 200
                     (Jobject [message "Login successful";
                               ("userId", Jint (User.id user))]))
     end).

Definition onboard : handler := fun e body _ =>
  try_catch
    (await result <-
       dbRun e (INSERT_INTO_suppliers (Body.name body)
                  (Body.registrationNumber body) (Body.address body)) ;;
     ret (res_json 201
            (Jobject [message "Supplier onboarded successfully";
                      ("supplierId", Jint (lastID result))]))).

Definition submit_bid : handler := fun e body _ =>
  try_catch
    (await result <-
       dbRun e (INSERT_INTO_bids (Body.rfpId body) (Body.supplierId body)
                  (Body.amount body) (Body.documents body)) ;;
     ret (res_json 201
            (Jobject [message "Bid submitted successfully";
                      ("bidId", Jint (lastID result))]))).

Definition evaluate : handler := fun e body _ =>
  let rfpId := bind_integer (Body.rfpId body) in
  try_catch
    (await bids <- dbAll e (SELECT_bids_WHERE_rfpId rfpId) ;;
     wait dbRun e (UPDATE_bids_SET_status_WHERE_rfpId (Some "evaluated") rfpId) ;;
     ret (res_json 200
            (Jobject [message "Bids evaluated successfully";
                      ("evaluatedBidsCount",
                       Jint (Z.of_nat (List.length bids)))]))).

Definition list_rfps : handler := fun e _ _ =>
  try_catch
    (await rfps <- dbAll e SELECT_rfps ;;
     ret (res_json 200 (Jarray (map Rfp.to_json rfps)))).

Definition create_rfp : handler := fun e body _ =>
  try_catch
    (await result <-
       dbRun e (INSERT_INTO_rfps (Body.title body) (Body.description body)) ;;
     ret (res_json 201
            (Jobject [message "RFP created successfully";
                      ("rfpId", Jint (lastID result))]))).

Definition winning : handler := fun e _ ps =>
  let rfpId := bind_text (lookup "rfpId" ps) in
  try_catch
    (await winningBid <-
       dbGet e (SELECT_bids_WHERE_rfpId_ORDER_BY_amount_ASC_LIMIT_1 rfpId) ;;
     match winningBid with
     | None =>
         ret (res_json 404 (Jobject [message "No bids found for this RFP"]))
     | Some winningBid =>
         ret (res_json 200 (Jobject [("winningBid", Bid.to_json winningBid)]))
     end).

Close Scope io_scope.

(** ** The application, in registration order *)

Definition routes : list layer :=
  [ route POST [lit "api"; lit "auth"; lit "register"] register;
    route POST [lit "api"; lit "auth"; lit "login"] login;
    route POST [lit "api"; lit "suppliers"; lit "onboard"] onboard;
    route POST [lit "api"; lit "bids"] submit_bid;
    route POST [lit "api"; lit "bids"; lit "evaluate"] evaluate;
    route GET [lit "api"; lit "rfps"] list_rfps;
    route POST [lit "api"; lit "rfps"] create_rfp;
    route GET [lit "api"; lit "bids"; lit "winning"; par "rfpId"] winning ].

Definition app : list layer :=
  use cors :: use bodyParser_json :: use_error error_handler :: routes.

(** One request against the store: the response and the store afterwards. *)
Definition handle (e : env) (req : request) (d : db) : response * db :=
  dispatch app None e req d.

(** ** Vocabulary of the theorems *)

Definition POST_to (u : list string) (f : Body.t) : request :=
  {| method := POST; url := u; body := parsed f |}.

(** A GET request; [f] is [Body.empty] unless the client sent a body. *)
Definition GET_from (u : list string) (f : Body.t) : request :=
  {| method := GET; url := u; body := parsed f |}.

(** The route a request is served by: the first one, in registration order,
    whose method and path match. *)
Fixpoint first_route (stack : list layer) (m : verb) (u : list string)
  : option (handler * params) :=
  match stack with
  | [] => None
  | route m' p h :: rest =>
      if verb_eqb m' m then
        match match_path p u with
        | Some ps => Some (h, ps)
        | None => first_route rest m u
        end
      else first_route rest m u
  | _ :: rest => first_route rest m u
  end.

Definition is_route (l : layer) : Prop :=
  match l with
  | route _ _ _ => True
  | _ => False
  end.

(** A handler whose errors carry no [status] property. *)
Definition fails_plainly (l : layer) : Prop :=
  match l with
  | route _ _ h =>
      forall e f ps d err d',
        h e f ps d = (next_error err, d') -> err_status err = None
  | _ => True
  end.

(** The response the error handler middleware would give for [err]. *)
Definition envelope (err : error) : response :=
  res_json 500
    (Jobject [message "Internal server error";
              ("error", Jstring (err_message err))]).

(** The bids of an RFP: the rows [SELECT * FROM bids WHERE rfpId = ?] yields. *)
Definition bids_of (e : env) (rfpId : param) (d : db) : list Bid.t :=
  select e (SELECT_bids_WHERE_rfpId rfpId) d.

(** The store with the status of every bid replaced by [g]'s choice. *)
Definition restatus (g : Bid.t -> option string) (d : db) : db :=
  set_bids
    {| rows := map (fun b => Bid.set_status (g b) b) (rows (bids d));
       seq := seq (bids d) |}
    d.

(** The states the store can be in: a fresh file, then any requests. *)
Inductive reachable : db -> Prop :=
| reachable_init : reachable initDb
| reachable_step e req d : reachable d -> reachable (snd (handle e req d)).

(** No two rows of the users table hold the same email. *)
Definition emails_unique (d : db) : Prop :=
  forall s,
    (List.length
       (filter (fun u => text_eq (User.email u) (Some s)) (rows (users d)))
     <= 1)%nat.

(** The order ORDER BY amount ASC puts two bids in. *)
Definition amount_order (b c : Bid.t) : Prop :=
  amount_le (Bid.amount b) (Bid.amount c) = true.

(** The paths of the routes. *)
Definition register_url : list string := ["api"; "auth"; "register"].
Definition login_url : list string := ["api"; "auth"; "login"].
Definition onboard_url : list string := ["api"; "suppliers"; "onboard"].
Definition bids_url : list string := ["api"; "bids"].
Definition evaluate_url : list string := ["api"; "bids"; "evaluate"].
Definition rfps_url : list string := ["api"; "rfps"].
Definition winning_url (rfpId : string) : list string :=
  ["api"; "bids"; "winning"; rfpId].

(** A property of the store that a layer keeps. *)
Definition keeps (P : db -> Prop) (l : layer) : Prop :=
  match l with
  | route _ _ h => forall e f ps d, P d -> P (snd (h e f ps d))
  | _ => True
  end.

(** The row POST /api/bids adds for body [f] under rowid [n]. *)
Definition bid_row (e : env) (f : Body.t) (n : Z) : Bid.t :=
  {| Bid.id := n; Bid.rfpId := Body.rfpId f;
     Bid.supplierId := Body.supplierId f; Bid.amount := Body.amount f;
     Bid.documents := Body.documents f; Bid.status := Some "pending";
     Bid.createdAt := Some (CURRENT_TIMESTAMP e) |}.

(** The row POST /api/auth/register adds for body [f] under rowid [n], with
    [h] the hash of the password. *)
Definition user_row (f : Body.t) (h : string) (n : Z) : User.t :=
  {| User.id := n; User.name := Body.name f; User.email := Body.email f;
     User.password := Some h |}.

(** ** Sample data *)

(** An environment to run examples in.  Its [hash] and [compare] are
    stand-ins that agree with each other, not bcrypt, and its
    [integer_of_text] reads plain decimal numerals; no theorem is about it. *)
Definition sample_env : env :=
  {| hash := fun s => "$2b$10$" ++ s;
     compare := fun s h => String.eqb h ("$2b$10$" ++ s);
     CURRENT_TIMESTAMP := "2024-05-01 12:00:00";
     integer_of_text :=
       fun s => option_map Z.of_int (NilEmpty.int_of_string s) |}.

(** [{ name: "Ann", email: "ann@example.com", password: "s3cret" }] *)
Definition ann : Body.t :=
  {| Body.name := Some "Ann"; Body.email := Some "ann@example.com";
     Body.password := Some "s3cret"; Body.registrationNumber := None;
     Body.address := None; Body.rfpId := None; Body.supplierId := None;
     Body.amount := None; Body.documents := None; Body.title := None;
     Body.description := None |}.

(** [{ rfpId: 1, supplierId: 1, amount: a, documents: "offer.pdf" }] *)
Definition offer (a : Z) : Body.t :=
  {| Body.name := None; Body.email := None; Body.password := None;
     Body.registrationNumber := None; Body.address := None;
     Body.rfpId := Some 1; Body.supplierId := Some 1;
     Body.amount := Some (inject_Z a); Body.documents := Some "offer.pdf";
     Body.title := None; Body.description := None |}.

(** The store after a sequence of requests. *)
Definition after (e : env) (reqs : list request) (d : db) : db :=
  fold_left (fun d req => snd (handle e req d)) reqs d.

(** A fresh store after bids of 100, 50 and 75 on RFP 1. *)
Definition three_bids : db :=
  after sample_env
    [POST_to bids_url (offer 100); POST_to bids_url (offer 50);
     POST_to bids_url (offer 75)]
    initDb.

(** A fresh store after Ann has registered. *)
Definition ann_registered : db :=
  after sample_env [POST_to register_url ann] initDb.

(** ** Vocabulary of the further properties *)

(** A handler that never calls [next()] without an error. *)
Definition answers (l : layer) : Prop :=
  match l with
  | route _ _ h => forall e f ps d d', h e f ps d <> (next, d')
  | _ => True
  end.

(** The five ways [app] deals with a request: [cors] answers a preflight;
    the error handler answers a body that does not parse; no route matches;
    the matching route's handler answers; the matching route's handler
    forwards an error. *)
Inductive served (e : env) (req : request) (d : db) : response * db -> Prop :=
| served_preflight :
    method req = OPTIONS ->
    served e req d ({| status := 204; sent := no_content |}, d)
| served_malformed why :
    method req <> OPTIONS ->
    body req = malformed why ->
    served e req d
      (envelope {| err_message := why; err_status := Some 400 |}, d)
| served_unrouted f :
    method req <> OPTIONS ->
    body req = parsed f ->
    first_route routes (method req) (url req) = None ->
    served e req d
      ({| status := 404; sent := not_found_page (method req) (url req) |}, d)
| served_sent f h ps r d' :
    body req = parsed f ->
    first_route routes (method req) (url req) = Some (h, ps) ->
    h e f ps d = (send r, d') ->
    served e req d (r, d')
| served_failed f h ps err d' :
    body req = parsed f ->
    first_route routes (method req) (url req) = Some (h, ps) ->
    h e f ps d = (next_error err, d') ->
    served e req d ({| status := 500; sent := error_page err |}, d').

(** A relation between the store before and after that a layer respects. *)
Definition relates (R : db -> db -> Prop) (l : layer) : Prop :=
  match l with
  | route _ _ h => forall e f ps d, R d (snd (h e f ps d))
  | _ => True
  end.

(** A handler of a GET route that leaves the store as it was. *)
Definition reads_only (l : layer) : Prop :=
  match l with
  | route GET _ h => forall e f ps d, snd (h e f ps d) = d
  | _ => True
  end.

(** A handler that writes only when it answers 200 or 201. *)
Definition writes_on_success (l : layer) : Prop :=
  match l with
  | route _ _ h =>
      forall e f ps d,
        match h e f ps d with
        | (send r, d') => d' = d \/ status r = 200 \/ status r = 201
        | (_, d') => d' = d
        end
  | _ => True
  end.

(** The rowids of a table: increasing along the rows, positive, and none
    above the table's counter. *)
Definition rowids_ok {R : Type} (id : R -> Z) (t : table R) : Prop :=
  StronglySorted Z.lt (map id (rows t))
  /\ Forall (fun i => 0 < i <= seq t) (map id (rows t)).

Definition store_rowids_ok (d : db) : Prop :=
  rowids_ok User.id (users d)
  /\ rowids_ok Supplier.id (suppliers d)
  /\ rowids_ok Rfp.id (rfps d)
  /\ rowids_ok Bid.id (bids d).

(** No two rows of the suppliers table hold the same registration number. *)
Definition registrations_unique (d : db) : Prop :=
  forall s,
    (List.length
       (filter (fun r => text_eq (Supplier.registrationNumber r) (Some s))
          (rows (suppliers d)))
     <= 1)%nat.

(** The row POST /api/suppliers/onboard adds for body [f] under rowid [n]. *)
Definition supplier_row (f : Body.t) (n : Z) : Supplier.t :=
  {| Supplier.id := n; Supplier.name := Body.name f;
     Supplier.registrationNumber := Body.registrationNumber f;
     Supplier.address := Body.address f |}.

(** The row POST /api/rfps adds for body [f] under rowid [n]. *)
Definition rfp_row (e : env) (f : Body.t) (n : Z) : Rfp.t :=
  {| Rfp.id := n; Rfp.title := Body.title f;
     Rfp.description := Body.description f;
     Rfp.createdAt := Some (CURRENT_TIMESTAMP e) |}.

(** [{ name: "Acme", registrationNumber: "RC-1", address: "1 Main St" }] *)
Definition acme : Body.t :=
  {| Body.name := Some "Acme"; Body.email := None; Body.password := None;
     Body.registrationNumber := Some "RC-1";
     Body.address := Some "1 Main St"; Body.rfpId := None;
     Body.supplierId := None; Body.amount := None; Body.documents := None;
     Body.title := None; Body.description := None |}.

(** Every user row holds a password hash. *)
Definition passwords_present (d : db) : Prop :=
  Forall (fun u => User.password u <> None) (rows (users d)).

(** [{ email: "ann@example.com" }], a login request without a password. *)
Definition ann_without_password : Body.t :=
  {| Body.name := None; Body.email := Some "ann@example.com";
     Body.password := None; Body.registrationNumber := None;
     Body.address := None; Body.rfpId := None; Body.supplierId := None;
     Body.amount := None; Body.documents := None; Body.title := None;
     Body.description := None |}.

(** [{ name: "Bob", password: "hunter2" }], a registration without an email. *)
Definition bob_without_email : Body.t :=
  {| Body.name := Some "Bob"; Body.email := None;
     Body.password := Some "hunter2"; Body.registrationNumber := None;
     Body.address := None; Body.rfpId := None; Body.supplierId := None;
     Body.amount := None; Body.documents := None; Body.title := None;
     Body.description := None |}.

(** Every bid is 'pending' or 'evaluated'. *)
Definition statuses_known (d : db) : Prop :=
  Forall (fun b => Bid.status b = Some "pending"
                   \/ Bid.status b = Some "evaluated")
    (rows (bids d)).

(** [l'] is [l] with rows added at the end. *)
Definition extends {A : Type} (l l' : list A) : Prop :=
  exists added, l' = (l ++ added)%list.

(** What can happen to a bid row: nothing but its status changes, and the
    status either stays or becomes 'evaluated'. *)
Definition bid_progress (b b' : Bid.t) : Prop :=
  Bid.id b' = Bid.id b
  /\ Bid.rfpId b' = Bid.rfpId b
  /\ Bid.supplierId b' = Bid.supplierId b
  /\ Bid.amount b' = Bid.amount b
  /\ Bid.documents b' = Bid.documents b
  /\ Bid.createdAt b' = Bid.createdAt b
  /\ (Bid.status b' = Bid.status b \/ Bid.status b' = Some "evaluated").

(** How the store can differ after requests: user, supplier and RFP rows are
    only added; bid rows are only added or moved on by [bid_progress]. *)
Definition grows (d d' : db) : Prop :=
  extends (rows (users d)) (rows (users d'))
  /\ extends (rows (suppliers d)) (rows (suppliers d'))
  /\ extends (rows (rfps d)) (rows (rfps d'))
  /\ exists kept added,
       rows (bids d') = (kept ++ added)%list
       /\ Forall2 bid_progress (rows (bids d)) kept.

(** What the evaluation of the RFP [p] does to one bid row. *)
Definition evaluated_row (e : env) (p : param) (b : Bid.t) : Bid.t :=
  if rfpId_eq e (Bid.rfpId b) p then Bid.set_status (Some "evaluated") b else b.

(** The answer of GET /api/bids/winning/:rfpId for the row [dbGet] found. *)
Definition winning_answer (w : option Bid.t) : response :=
  match w with
  | None => res_json 404 (Jobject [message "No bids found for this RFP"])
  | Some b => res_json 200 (Jobject [("winningBid", Bid.to_json b)])
  end.

(** [{ rfpId: 1, supplierId: 1, amount: 50, documents: "offer.pdf" }] with
    the RFP replaced by RFP 2, which has no bids in [three_bids]. *)
Definition for_rfp_2 : Body.t :=
  {| Body.name := None; Body.email := None; Body.password := None;
     Body.registrationNumber := None; Body.address := None;
     Body.rfpId := Some 2; Body.supplierId := None; Body.amount := None;
     Body.documents := None; Body.title := None; Body.description := None |}.

(** [{ supplierId: 1, documents: "offer.pdf" }] for RFP 1, without an amount. *)
Definition unpriced : Body.t :=
  {| Body.name := None; Body.email := None; Body.password := None;
     Body.registrationNumber := None; Body.address := None;
     Body.rfpId := Some 1; Body.supplierId := Some 1; Body.amount := None;
     Body.documents := Some "offer.pdf"; Body.title := None;
     Body.description := None |}.

(** [{ supplierId: 1, amount: 10 }], a bid that names no RFP. *)
Definition stray : Body.t :=
  {| Body.name := None; Body.email := None; Body.password := None;
     Body.registrationNumber := None; Body.address := None;
     Body.rfpId := None; Body.supplierId := Some 1;
     Body.amount := Some (inject_Z 10); Body.documents := None;
     Body.title := None; Body.description := None |}.

(** ** The claims' words *)

(** Stated from the claims, not from the handlers: the bids of the RFP with
    identifier [z] are the rows of the bids table whose rfpId column holds
    [z]. *)
Definition has_rfpId (z : Z) (b : Bid.t) : bool :=
  match Bid.rfpId b with
  | Some r => Z.eqb r z
  | None => false
  end.

Definition bids_with_rfpId (z : Z) (d : db) : list Bid.t :=
  filter (has_rfpId z) (rows (bids d)).

(** Stated from the claims: [w] carries an amount, and no bid of [l] carries
    a lower one. *)
Definition carries_least_amount (w : Bid.t) (l : list Bid.t) : Prop :=
  exists x,
    Bid.amount w = Some x
    /\ forall c y, In c l -> Bid.amount c = Some y -> (x <= y)%Q.

(** Stated from the claims: [u] is a stored user whose email is the email of
    the login request [f]. *)
Definition registered_as (f : Body.t) (d : db) (u : User.t) : Prop :=
  In u (rows (users d))
  /\ exists s, Body.email f = Some s /\ User.email u = Some s.

(** [three_bids] after one more bid on RFP 1, without an amount. *)
Definition four_bids : db :=
  after sample_env [POST_to bids_url unpriced] three_bids.

(** The row Ann's registration stored. *)
Definition ann_row : User.t :=
  user_row ann (hash sample_env "s3cret") 1.
(** * The router *)

Lemma dispatch_pending_routes stack err e req d :
  Forall is_route stack ->
  dispatch stack (Some err) e req d = (finalhandler (Some err) req, d).
Proof.
  induction 1 as [|l stack Hl _ IH]; [reflexivity|].
  destruct l; try contradiction. exact IH.
Qed.

(** A failure forwarded by the route that serves a request passes every
    later route and ends in the built-in handler. *)
Lemma dispatch_route_fails stack e m u f d h ps err d' :
  Forall is_route stack ->
  first_route stack m u = Some (h, ps) ->
  h e f ps d = (next_error err, d') ->
  let req := {| method := m; url := u; body := parsed f |} in
  dispatch stack None e req d = (finalhandler (Some err) req, d').
Proof.
  intros Hstack. revert h ps.
  induction Hstack as [|l stack Hl Hs IH]; intros h ps; [discriminate|].
  destruct l as [| |m' p h']; try contradiction.
  cbn [first_route dispatch method url body].
  destruct (verb_eqb m' m); [|exact (IH h ps)].
  destruct (match_path p u) as [ps'|]; [|exact (IH h ps)].
  intros [= -> ->] Hh. rewrite Hh.
  apply dispatch_pending_routes, Hs.
Qed.

(** A property of the store that every layer keeps holds after a request. *)
Lemma dispatch_keeps (P : db -> Prop) stack :
  Forall (keeps P) stack ->
  forall pending e req d, P d -> P (snd (dispatch stack pending e req d)).
Proof.
  induction 1 as [|l stack Hl _ IH]; intros pending e req d Hd;
    [exact Hd|].
  destruct l as [fn|fn|m p h]; cbn [dispatch].
  - destruct pending; [apply IH, Hd|].
    destruct (fn req); [exact Hd| |]; apply IH, Hd.
  - destruct pending as [err|]; [|apply IH, Hd].
    destruct (fn err req); [exact Hd| |]; apply IH, Hd.
  - destruct pending; [apply IH, Hd|].
    destruct (verb_eqb m (method req)); [|apply IH, Hd].
    destruct (match_path p (url req)) as [ps|]; [|apply IH, Hd].
    destruct (body req) as [why|f]; [apply IH, Hd|].
    pose proof (Hl e f ps d Hd) as Hd'.
    destruct (h e f ps d) as [[r| |err] d']; cbn [snd] in Hd';
      [exact Hd'| |]; apply IH, Hd'.
Qed.

Lemma routes_are_routes : Forall is_route routes.
Proof. repeat constructor. Qed.

Lemma first_route_In stack m u h ps :
  first_route stack m u = Some (h, ps) ->
  exists m' p, In (route m' p h) stack.
Proof.
  induction stack as [|l stack IH]; [discriminate|].
  destruct l as [| |m' p h']; cbn [first_route]; intros H.
  1,2: destruct (IH H) as (m1 & p1 & Hin); exists m1, p1; right; exact Hin.
  destruct (verb_eqb m' m).
  - destruct (match_path p u).
    + injection H as -> _. exists m', p. left; reflexivity.
    + destruct (IH H) as (m1 & p1 & Hin); exists m1, p1; right; exact Hin.
  - destruct (IH H) as (m1 & p1 & Hin); exists m1, p1; right; exact Hin.
Qed.

Ltac run_handler :=
  unfold register, login, onboard, submit_bid, evaluate, list_rfps, create_rfp,
    winning, try_catch, bind, ret, settle, bcrypt_hash, bcrypt_compare, dbGet,
    dbAll, dbRun, append; cbn beta iota.

Lemma routes_fail_plainly : Forall fails_plainly routes.
Proof.
  repeat constructor; intros e f ps d err d'; run_handler.
  - destruct (Body.password f); cbn; [|intros [= <- _]; reflexivity].
    destruct (taken _ _ _); cbn; [intros [= <- _]; reflexivity|discriminate].
  - destruct (hd_error _) as [u|]; cbn; [|discriminate].
    destruct (Body.password f), (User.password u); cbn;
      try (intros [= <- _]; reflexivity).
    destruct (negb _); discriminate.
  - destruct (taken _ _ _); cbn; [intros [= <- _]; reflexivity|discriminate].
  - destruct (_ && _); cbn; [intros [= <- _]; reflexivity|discriminate].
  - discriminate.
  - discriminate.
  - discriminate.
  - destruct (hd_error _); discriminate.
Qed.

Lemma handle_routes e m u f d :
  m <> OPTIONS ->
  handle e {| method := m; url := u; body := parsed f |} d
  = dispatch routes None e {| method := m; url := u; body := parsed f |} d.
Proof. intros Hm. unfold handle, app. destruct m; try reflexivity. congruence. Qed.

Lemma routed_is_no_preflight m u h ps :
  first_route routes m u = Some (h, ps) -> m <> OPTIONS.
Proof. intros H ->. discriminate H. Qed.

(** C1, as the program behaves.  The claim is that a failure a handler
    forwards with [next(error)] is answered with status 500 and the body
    [{message: 'Internal server error', error}].  The error handler
    middleware that builds this body is registered before the routes, and the
    router only moves forward: a failure forwarded by a route finds no error
    handler after it and reaches Express's built-in one.  For every request
    served by a route whose handler forwards [err], the response has status
    500 and Express's error page as its body; it is not the envelope. *)
Theorem propagated_failure_gets_default_page e m u f d h ps err d' :
  first_route routes m u = Some (h, ps) ->
  h e f ps d = (next_error err, d') ->
  let req := {| method := m; url := u; body := parsed f |} in
  handle e req d = ({| status := 500; sent := error_page err |}, d')
  /\ fst (handle e req d) <> envelope err.
Proof.
  intros Hr Hh req.
  assert (E : handle e req d = ({| status := 500; sent := error_page err |}, d')).
  { unfold req. rewrite handle_routes by exact (routed_is_no_preflight _ _ _ _ Hr).
    rewrite (dispatch_route_fails routes e m u f d h ps err d'
               routes_are_routes Hr Hh).
    destruct (first_route_In _ _ _ _ _ Hr) as (m' & p & Hin).
    pose proof (proj1 (Forall_forall _ _) routes_fail_plainly _ Hin) as Hp.
    cbn in Hp. unfold finalhandler. rewrite (Hp _ _ _ _ _ _ Hh). reflexivity. }
  split; [exact E|]. rewrite E. discriminate.
Qed.

Lemma malformed_body_reaches_error_handler e m u why d :
  m <> OPTIONS ->
  handle e {| method := m; url := u; body := malformed why |} d
  = (envelope {| err_message := why; err_status := Some 400 |}, d).
Proof. intros Hm. destruct m; try reflexivity. congruence. Qed.


(** * ORDER BY amount *)

Lemma amount_le_total a b : amount_le a b = false -> amount_le b a = true.
Proof.
  destruct a as [x|], b as [y|]; cbn; try congruence.
  intros H. apply Qle_bool_iff. destruct (Qlt_le_dec y x) as [L|L].
  - apply Qlt_le_weak, L.
  - apply Qle_bool_iff in L. congruence.
Qed.

Lemma amount_le_trans a b c :
  amount_le a b = true -> amount_le b c = true -> amount_le a c = true.
Proof.
  destruct a as [x|], b as [y|], c as [z|]; cbn; try congruence.
  rewrite !Qle_bool_iff. apply Qle_trans.
Qed.

Lemma insert_by_amount_In b l x :
  In x (insert_by_amount b l) <-> x = b \/ In x l.
Proof.
  induction l as [|c l IH]; cbn.
  - intuition congruence.
  - destruct (amount_le _ _); cbn; [intuition congruence|].
    rewrite IH. intuition congruence.
Qed.

Lemma order_by_amount_In l x : In x (order_by_amount l) <-> In x l.
Proof.
  induction l as [|b l IH]; cbn; [tauto|].
  rewrite insert_by_amount_In, IH. intuition congruence.
Qed.

Lemma insert_by_amount_sorted b l :
  StronglySorted amount_order l ->
  StronglySorted amount_order (insert_by_amount b l).
Proof.
  induction 1 as [|c l Hs IH Hc]; cbn.
  - repeat constructor.
  - destruct (amount_le (Bid.amount b) (Bid.amount c)) eqn:E.
    + constructor; [constructor; assumption|].
      constructor; [exact E|].
      eapply Forall_impl; [|exact Hc].
      intros x Hx. eapply amount_le_trans; [exact E|exact Hx].
    + constructor; [exact IH|].
      apply Forall_forall. intros x Hx.
      apply insert_by_amount_In in Hx. destruct Hx as [->|Hx].
      * apply amount_le_total, E.
      * exact (proj1 (Forall_forall _ _) Hc x Hx).
Qed.

Lemma order_by_amount_sorted l : StronglySorted amount_order (order_by_amount l).
Proof.
  induction l as [|b l IH]; cbn; [constructor|].
  apply insert_by_amount_sorted, IH.
Qed.

(** The first row of the sorted result is one of the rows and no row sorts
    before it. *)
Lemma order_by_amount_first l b rest :
  order_by_amount l = b :: rest ->
  In b l /\ forall c, In c l -> amount_le (Bid.amount b) (Bid.amount c) = true.
Proof.
  intros E. split.
  - apply order_by_amount_In. rewrite E. left; reflexivity.
  - intros c Hc. apply order_by_amount_In in Hc. rewrite E in Hc.
    pose proof (order_by_amount_sorted l) as S. rewrite E in S.
    apply StronglySorted_inv in S. destruct S as [_ F].
    destruct Hc as [<-|Hc].
    + destruct (amount_le (Bid.amount b) (Bid.amount b)) eqn:R; [reflexivity|].
      pose proof (amount_le_total _ _ R). congruence.
    + exact (proj1 (Forall_forall _ _) F c Hc).
Qed.

Lemma order_by_amount_nil l : order_by_amount l = [] -> l = [].
Proof.
  destruct l as [|b l]; [reflexivity|]. intros E.
  assert (H : In b (order_by_amount (b :: l)))
    by (apply order_by_amount_In; left; reflexivity).
  rewrite E in H. contradiction.
Qed.

Lemma insert_by_amount_map (h : Bid.t -> Bid.t) b l :
  (forall x, Bid.amount (h x) = Bid.amount x) ->
  insert_by_amount (h b) (map h l) = map h (insert_by_amount b l).
Proof.
  intros Hh. induction l as [|c l IH]; cbn; [reflexivity|].
  rewrite !Hh. destruct (amount_le _ _); cbn; [reflexivity|].
  rewrite IH. reflexivity.
Qed.

Lemma order_by_amount_map (h : Bid.t -> Bid.t) l :
  (forall x, Bid.amount (h x) = Bid.amount x) ->
  order_by_amount (map h l) = map h (order_by_amount l).
Proof.
  intros Hh. induction l as [|b l IH]; [reflexivity|].
  change (insert_by_amount (h b) (order_by_amount (map h l))
          = map h (insert_by_amount b (order_by_amount l))).
  rewrite IH. apply insert_by_amount_map, Hh.
Qed.

Lemma filter_map_commute {A} (p : A -> bool) (h : A -> A) l :
  (forall x, p (h x) = p x) ->
  filter p (map h l) = map h (filter p l).
Proof.
  intros Hp. induction l as [|a l IH]; cbn; [reflexivity|].
  rewrite Hp. destruct (p a); cbn; rewrite IH; reflexivity.
Qed.

(** * GET /api/bids/winning/:rfpId *)

Lemma handle_winning e f d seg :
  handle e (GET_from (winning_url seg) f) d
  = match hd_error (select e (SELECT_bids_WHERE_rfpId_ORDER_BY_amount_ASC_LIMIT_1 (TEXT seg)) d) with
    | None => (res_json 404 (Jobject [message "No bids found for this RFP"]), d)
    | Some b => (res_json 200 (Jobject [("winningBid", Bid.to_json b)]), d)
    end.
Proof.
  unfold handle, app, routes, GET_from, winning_url.
  cbn -[select finalhandler].
  unfold winning, try_catch, bind, dbGet, ret. cbn -[select].
  destruct (hd_error _); reflexivity.
Qed.

Lemma winning_select e p d :
  select e (SELECT_bids_WHERE_rfpId_ORDER_BY_amount_ASC_LIMIT_1 p) d
  = firstn 1 (order_by_amount (bids_of e p d)).
Proof. reflexivity. Qed.

(** The handlers' [rfpId = ?] against the claims' words. *)
Lemma rfpId_eq_INTEGER e col z :
  rfpId_eq e col (INTEGER z)
  = match col with Some r => Z.eqb r z | None => false end.
Proof. destruct col; reflexivity. Qed.

Lemma bids_of_INTEGER e z d : bids_of e (INTEGER z) d = bids_with_rfpId z d.
Proof.
  unfold bids_of, bids_with_rfpId. cbn [select].
  apply filter_ext. intros b. apply rfpId_eq_INTEGER.
Qed.

Lemma bids_of_TEXT e seg z d :
  integer_of_text e seg = Some z ->
  bids_of e (TEXT seg) d = bids_with_rfpId z d.
Proof.
  intros H. unfold bids_of, bids_with_rfpId. cbn [select].
  apply filter_ext. intros b. unfold rfpId_eq, has_rfpId. rewrite H.
  destruct (Bid.rfpId b); reflexivity.
Qed.

(** C2, as amended.  When the RFP named in the path has at least one bid,
    GET /api/bids/winning/:rfpId answers 200 with a bid [b] of that RFP, and
    no bid of the RFP sorts before [b] under ORDER BY amount ASC.  If every
    bid of the RFP carries an amount, [b] carries the least of them; if some
    bid of the RFP carries none, [b] carries none, since NULL sorts first.
    The choice does not look at the status column: whatever statuses the
    bids are given, the same bid is returned, with the status it then has.
    When the RFP's bids have the amounts 100, 50 and 75, the returned amount
    is 50.  The bids of the RFP are the rows whose rfpId is the integer the
    path segment denotes. *)
Theorem winning_bid_is_minimal e f d seg :
  bids_of e (TEXT seg) d <> [] ->
  exists b,
    handle e (GET_from (winning_url seg) f) d
    = (res_json 200 (Jobject [("winningBid", Bid.to_json b)]), d)
    /\ In b (bids_of e (TEXT seg) d)
    /\ (forall c, In c (bids_of e (TEXT seg) d) ->
          amount_le (Bid.amount b) (Bid.amount c) = true)
    /\ (forall c x y, In c (bids_of e (TEXT seg) d) ->
          Bid.amount b = Some x -> Bid.amount c = Some y -> (x <= y)%Q)
    /\ ((forall c, In c (bids_of e (TEXT seg) d) -> Bid.amount c <> None) ->
        carries_least_amount b (bids_of e (TEXT seg) d))
    /\ ((exists c, In c (bids_of e (TEXT seg) d) /\ Bid.amount c = None) ->
        Bid.amount b = None)
    /\ (forall g,
          fst (handle e (GET_from (winning_url seg) f) (restatus g d))
          = res_json 200
              (Jobject [("winningBid", Bid.to_json (Bid.set_status (g b) b))]))
    /\ (Permutation (map Bid.amount (bids_of e (TEXT seg) d))
          [Some (100 # 1); Some (50 # 1); Some (75 # 1)] ->
        Bid.amount b = Some (50 # 1))
    /\ (forall z, integer_of_text e seg = Some z ->
          bids_of e (TEXT seg) d = bids_with_rfpId z d).
Proof.
  intros Hne.
  destruct (order_by_amount (bids_of e (TEXT seg) d)) as [|b rest] eqn:E.
  { apply order_by_amount_nil in E. contradiction. }
  destruct (order_by_amount_first _ _ _ E) as [Hin Hmin].
  assert (Hnum : forall c x y, In c (bids_of e (TEXT seg) d) ->
            Bid.amount b = Some x -> Bid.amount c = Some y -> (x <= y)%Q).
  { intros c x y Hc Hb Hy. specialize (Hmin c Hc). rewrite Hb, Hy in Hmin.
    apply Qle_bool_iff, Hmin. }
  exists b. split; [|split; [exact Hin|split; [exact Hmin|split; [exact Hnum|]]]].
  { rewrite handle_winning, winning_select, E. reflexivity. }
  split; [|split; [|split; [|split]]].
  - intros Hall. destruct (Bid.amount b) as [x|] eqn:Hb.
    + exists x. split; [exact Hb|].
      intros c y Hc Hy. exact (Hnum c x y Hc eq_refl Hy).
    + destruct (Hall b Hin Hb).
  - intros (c & Hc & Hnone). specialize (Hmin c Hc). rewrite Hnone in Hmin.
    destruct (Bid.amount b); [discriminate Hmin|reflexivity].
  - intros g. rewrite handle_winning, winning_select.
    unfold bids_of, restatus. cbn [select set_bids bids rows].
    rewrite (filter_map_commute _ (fun b0 => Bid.set_status (g b0) b0))
      by reflexivity.
    rewrite order_by_amount_map by reflexivity.
    change (filter _ (rows (bids d))) with (bids_of e (TEXT seg) d).
    rewrite E. reflexivity.
  - intros P.
    assert (Hb : In (Bid.amount b) [Some (100 # 1); Some (50 # 1); Some (75 # 1)]).
    { eapply Permutation_in; [exact P|]. apply in_map, Hin. }
    assert (H50 : In (Some (50 # 1)) (map Bid.amount (bids_of e (TEXT seg) d))).
    { eapply Permutation_in; [symmetry; exact P|]. right; left; reflexivity. }
    apply in_map_iff in H50. destruct H50 as (c & Hc & Hcin).
    specialize (Hmin c Hcin). rewrite Hc in Hmin.
    destruct Hb as [Hb|[Hb|[Hb|[]]]]; rewrite <- Hb in Hmin |- *;
      first [reflexivity|discriminate Hmin].
  - intros z Hz. apply bids_of_TEXT, Hz.
Qed.

(** C6.  When no bid row matches the RFP identifier of the path, GET
    /api/bids/winning/:rfpId answers 404 and leaves the store as it was. *)
Theorem no_bids_no_winner e f d seg :
  bids_of e (TEXT seg) d = [] ->
  handle e (GET_from (winning_url seg) f) d
  = (res_json 404 (Jobject [message "No bids found for this RFP"]), d).
Proof.
  intros E. rewrite handle_winning, winning_select, E. reflexivity.
Qed.

(** * POST /api/bids/evaluate *)

(** What [UPDATE bids SET status = ? WHERE rfpId = ?] does to one row. *)
Lemma handle_evaluate e f d :
  let p := bind_integer (Body.rfpId f) in
  handle e (POST_to evaluate_url f) d
  = (res_json 200
       (Jobject [message "Bids evaluated successfully";
                 ("evaluatedBidsCount",
                  Jint (Z.of_nat (List.length (bids_of e p d))))]),
     set_bids
       {| rows :=
            map (fun b =>
                   if rfpId_eq e (Bid.rfpId b) p
                   then Bid.set_status (Some "evaluated") b else b)
                (rows (bids d));
          seq := seq (bids d) |}
       d).
Proof. reflexivity. Qed.

Lemma filter_update {A} (p : A -> bool) (h : A -> A) l :
  (forall x, p (h x) = p x) ->
  filter p (map (fun x => if p x then h x else x) l) = map h (filter p l).
Proof.
  intros Hp. induction l as [|a l IH]; cbn; [reflexivity|].
  destruct (p a) eqn:E; cbn.
  - rewrite Hp, E, IH. reflexivity.
  - rewrite E, IH. reflexivity.
Qed.

Lemma update_twice {A} (p : A -> bool) (h : A -> A) l :
  (forall x, p (h x) = p x) ->
  (forall x, h (h x) = h x) ->
  map (fun x => if p x then h x else x) (map (fun x => if p x then h x else x) l)
  = map (fun x => if p x then h x else x) l.
Proof.
  intros Hp Hh. rewrite map_map. apply map_ext. intros a.
  destruct (p a) eqn:E; [rewrite Hp, E, Hh|rewrite E]; reflexivity.
Qed.

Lemma rfpId_eq_bound e e' col v :
  rfpId_eq e col (bind_integer v) = rfpId_eq e' col (bind_integer v).
Proof. destruct col, v; reflexivity. Qed.

Lemma bids_of_evaluated e f d :
  bids_of e (bind_integer (Body.rfpId f))
    (snd (handle e (POST_to evaluate_url f) d))
  = map (Bid.set_status (Some "evaluated"))
      (bids_of e (bind_integer (Body.rfpId f)) d).
Proof.
  rewrite handle_evaluate. unfold bids_of.
  cbn [snd select set_bids bids rows].
  apply (filter_update
           (fun b => rfpId_eq e (Bid.rfpId b) (bind_integer (Body.rfpId f)))).
  reflexivity.
Qed.

(** C3.  Let the body name the RFP [z], and let N be the number of rows of
    the bids table whose rfpId is [z].  POST /api/bids/evaluate answers 200
    with [evaluatedBidsCount] = N; afterwards the rows whose rfpId is [z] are
    the same N bids (same ids, in the same order), and every row of the bids
    table whose rfpId is [z] has status 'evaluated', whatever its amount,
    documents or earlier status were. *)
Theorem evaluation_counts_and_marks e f d z :
  Body.rfpId f = Some z ->
  let N := List.length (bids_with_rfpId z d) in
  let out := handle e (POST_to evaluate_url f) d in
  fst out
  = res_json 200
      (Jobject [message "Bids evaluated successfully";
                ("evaluatedBidsCount", Jint (Z.of_nat N))])
  /\ bids_with_rfpId z (snd out)
     = map (Bid.set_status (Some "evaluated")) (bids_with_rfpId z d)
  /\ List.length (bids_with_rfpId z (snd out)) = N
  /\ map Bid.id (bids_with_rfpId z (snd out))
     = map Bid.id (bids_with_rfpId z d)
  /\ (forall b, In b (rows (bids (snd out))) -> Bid.rfpId b = Some z ->
        Bid.status b = Some "evaluated").
Proof.
  intros Hz N out.
  assert (H : bids_with_rfpId z (snd out)
              = map (Bid.set_status (Some "evaluated")) (bids_with_rfpId z d)).
  { rewrite <- !(bids_of_INTEGER e).
    pose proof (bids_of_evaluated e f d) as B. rewrite Hz in B. exact B. }
  split.
  { unfold out. rewrite handle_evaluate. cbv zeta. rewrite Hz.
    cbn [fst bind_integer]. rewrite bids_of_INTEGER. reflexivity. }
  split; [exact H|]. split; [rewrite H; apply length_map|]. split.
  - rewrite H, map_map. reflexivity.
  - intros b Hb Hr.
    assert (Hin : In b (bids_with_rfpId z (snd out))).
    { apply filter_In. split; [exact Hb|].
      unfold has_rfpId. rewrite Hr. apply Z.eqb_refl. }
    rewrite H in Hin. apply in_map_iff in Hin.
    destruct Hin as (c & <- & _). reflexivity.
Qed.

(** C4.  Evaluating the same RFP a second time, right after the first,
    gives the same response as the first time (200 and the same count) and
    leaves the store exactly as the first evaluation left it; every bid of
    the RFP still has status 'evaluated'. *)
Theorem evaluation_is_idempotent e e' f d :
  let p := bind_integer (Body.rfpId f) in
  let once := handle e (POST_to evaluate_url f) d in
  handle e' (POST_to evaluate_url f) (snd once) = once
  /\ (forall b, In b (bids_of e' p (snd once)) ->
        Bid.status b = Some "evaluated").
Proof.
  intros p once. subst p once.
  set (p := bind_integer (Body.rfpId f)).
  set (hit := fun e0 b => rfpId_eq e0 (Bid.rfpId b) p).
  assert (Hhit : forall b, hit e' b = hit e b)
    by (intros b; apply rfpId_eq_bound).
  assert (B : bids_of e' p (snd (handle e (POST_to evaluate_url f) d))
              = map (Bid.set_status (Some "evaluated")) (bids_of e p d)).
  { unfold p. rewrite <- bids_of_evaluated. unfold bids_of.
    cbn [select]. apply filter_ext, Hhit. }
  split.
  - rewrite (handle_evaluate e'). fold p. rewrite B, length_map.
    rewrite (handle_evaluate e). fold p. cbn [snd].
    f_equal. unfold set_bids.
    cbn [users suppliers rfps bids rows seq foreign_keys].
    f_equal. f_equal.
    rewrite (map_ext (fun b => if hit e' b
                               then Bid.set_status (Some "evaluated") b else b)
                     (fun b => if hit e b
                               then Bid.set_status (Some "evaluated") b else b))
      by (intros b; rewrite Hhit; reflexivity).
    apply (update_twice (hit e)); reflexivity.
  - intros b Hb. rewrite B in Hb. apply in_map_iff in Hb.
    destruct Hb as (c & <- & _). reflexivity.
Qed.

(** C10.  POST /api/bids/evaluate leaves the users, suppliers and rfps
    tables and the bids table's counter as they were and keeps every bid row
    in its place; a row keeps its id, rfpId, supplierId, amount, documents and
    createdAt, and a row of another RFP is unchanged altogether. *)
Theorem evaluation_frame e f d :
  let p := bind_integer (Body.rfpId f) in
  let d' := snd (handle e (POST_to evaluate_url f) d) in
  users d' = users d
  /\ suppliers d' = suppliers d
  /\ rfps d' = rfps d
  /\ foreign_keys d' = foreign_keys d
  /\ seq (bids d') = seq (bids d)
  /\ List.length (rows (bids d')) = List.length (rows (bids d))
  /\ (forall i b, nth_error (rows (bids d)) i = Some b ->
        exists b',
          nth_error (rows (bids d')) i = Some b'
          /\ Bid.id b' = Bid.id b
          /\ Bid.rfpId b' = Bid.rfpId b
          /\ Bid.supplierId b' = Bid.supplierId b
          /\ Bid.amount b' = Bid.amount b
          /\ Bid.documents b' = Bid.documents b
          /\ Bid.createdAt b' = Bid.createdAt b
          /\ (rfpId_eq e (Bid.rfpId b) p = false -> b' = b)).
Proof.
  intros p d'. unfold d'. rewrite handle_evaluate. fold p.
  cbn [snd set_bids users suppliers rfps bids rows seq foreign_keys].
  repeat (split; [reflexivity|]). split; [apply length_map|].
  intros i b Hb. rewrite nth_error_map, Hb. cbn [option_map].
  eexists; split; [reflexivity|].
  destruct (rfpId_eq e (Bid.rfpId b) p); repeat split; congruence.
Qed.

(** * POST /api/auth/login *)

Lemma handle_login e f d :
  handle e (POST_to login_url f) d
  = match hd_error (select e (SELECT_users_WHERE_email (Body.email f)) d) with
    | None => (res_json 401 (Jobject [message "Invalid credentials"]), d)
    | Some u =>
        match Body.password f, User.password u with
        | Some pw, Some h =>
            if compare e pw h
            then (res_json 200
                    (Jobject [message "Login successful";
                              ("userId", Jint (User.id u))]), d)
            else (res_json 401 (Jobject [message "Invalid credentials"]), d)
        | _, _ =>
            ({| status := 500;
                sent := error_page
                          (plain_error "data and hash arguments required") |}, d)
        end
    end.
Proof.
  unfold handle, app, routes, POST_to, login_url.
  cbn -[select finalhandler].
  unfold login, try_catch, bind, dbGet, ret, bcrypt_compare, settle.
  cbn -[select].
  destruct (hd_error _) as [u|]; [|reflexivity].
  destruct (Body.password f), (User.password u); try reflexivity.
  destruct (compare e s s0); reflexivity.
Qed.

(** * AUTOINCREMENT *)

Lemma largest_nonneg ids : 0 <= largest ids.
Proof.
  unfold largest. induction ids as [|x ids IH]; cbn [fold_right]; lia.
Qed.

Lemma largest_bounds ids x : In x ids -> x <= largest ids.
Proof.
  unfold largest. induction ids as [|y ids IH]; cbn [fold_right In];
    [contradiction|].
  intros [->|H]; [lia|]. specialize (IH H). lia.
Qed.

Lemma new_rowid_positive {R} (id : R -> Z) t : 0 < new_rowid id t.
Proof. unfold new_rowid. pose proof (largest_nonneg (map id (rows t))). lia. Qed.

Lemma new_rowid_fresh {R} (id : R -> Z) t : ~ In (new_rowid id t) (map id (rows t)).
Proof.
  intros H. apply largest_bounds in H. unfold new_rowid in H. lia.
Qed.

(** * POST /api/bids *)

Lemma handle_submit_bid e f d :
  foreign_keys d = false ->
  handle e (POST_to bids_url f) d
  = (res_json 201
       (Jobject [message "Bid submitted successfully";
                 ("bidId", Jint (new_rowid Bid.id (bids d)))]),
     set_bids
       {| rows := rows (bids d) ++ [bid_row e f (new_rowid Bid.id (bids d))];
          seq := new_rowid Bid.id (bids d) |}
       d).
Proof.
  intros Off. unfold handle, app, routes, POST_to, bids_url.
  cbn -[new_rowid finalhandler refers].
  unfold submit_bid, try_catch, bind, dbRun, ret, append.
  rewrite Off. reflexivity.
Qed.

Lemma app_keeps_foreign_keys_off :
  Forall (keeps (fun d => foreign_keys d = false)) app.
Proof.
  unfold app, routes.
  repeat apply Forall_cons; try apply Forall_nil; try exact I;
    intros e f ps d Hd; run_handler;
    try (destruct (hd_error _); exact Hd); try exact Hd.
  - destruct (Body.password f); cbn; [|exact Hd].
    destruct (taken _ _ _); exact Hd.
  - destruct (hd_error _) as [u|]; cbn; [|exact Hd].
    destruct (Body.password f), (User.password u); cbn; try exact Hd.
    destruct (negb _); exact Hd.
  - destruct (taken _ _ _); exact Hd.
  - destruct (_ && _); exact Hd.
Qed.

Lemma reachable_foreign_keys_off d : reachable d -> foreign_keys d = false.
Proof.
  induction 1 as [|e req d _ IH]; [reflexivity|].
  exact (dispatch_keeps (fun d => foreign_keys d = false) app
           app_keeps_foreign_keys_off None e req d IH).
Qed.

(** C9.  On a connection that does not enforce foreign keys, POST /api/bids
    answers 201 with a fresh, positive bid id and appends the row, whatever
    the rfpId and supplierId of the body are and whatever rows the rfps and
    suppliers tables hold.  No request turns enforcement on: every state the
    store reaches from a fresh file has it off. *)
Theorem bid_submission_checks_no_reference e f d :
  foreign_keys d = false ->
  let n := new_rowid Bid.id (bids d) in
  handle e (POST_to bids_url f) d
  = (res_json 201
       (Jobject [message "Bid submitted successfully"; ("bidId", Jint n)]),
     set_bids {| rows := rows (bids d) ++ [bid_row e f n]; seq := n |} d)
  /\ 0 < n
  /\ ~ In n (map Bid.id (rows (bids d)))
  /\ (forall d0, reachable d0 -> foreign_keys d0 = false).
Proof.
  intros Off n. split; [apply handle_submit_bid, Off|].
  split; [apply new_rowid_positive|].
  split; [apply new_rowid_fresh|]. exact reachable_foreign_keys_off.
Qed.

(** * POST /api/auth/register *)

Lemma handle_register e f d :
  handle e (POST_to register_url f) d
  = match Body.password f with
    | None =>
        ({| status := 500;
            sent := error_page
                      (plain_error "data and salt arguments required") |}, d)
    | Some pw =>
        if taken User.email (Body.email f) (users d)
        then ({| status := 500;
                 sent := error_page
                           (SQLITE_CONSTRAINT
                              "UNIQUE constraint failed: users.email") |}, d)
        else
          let n := new_rowid User.id (users d) in
          (res_json 201
             (Jobject [message "User registered successfully";
                       ("userId", Jint n)]),
           set_users
             {| rows := rows (users d) ++ [user_row f (hash e pw) n];
                seq := n |}
             d)
    end.
Proof.
  unfold handle, app, routes, POST_to, register_url.
  cbn -[taken finalhandler new_rowid].
  unfold register, try_catch, bind, dbRun, ret, bcrypt_hash, settle, append.
  cbn -[taken new_rowid].
  destruct (Body.password f); [|reflexivity].
  destruct (taken _ _ _); reflexivity.
Qed.

Lemma existsb_false_filter {A} (p : A -> bool) l :
  existsb p l = false -> filter p l = [].
Proof.
  induction l as [|a l IH]; cbn; [reflexivity|].
  destruct (p a); cbn; [discriminate|exact IH].
Qed.

Lemma text_eq_Some col s : text_eq col (Some s) = true -> col = Some s.
Proof.
  destruct col as [c|]; cbn; [|discriminate].
  intros H. apply String.eqb_eq in H. congruence.
Qed.

Lemma taken_after_append {R} (col : R -> option string) s (t : table R) r :
  col r = Some s ->
  taken col (Some s) {| rows := rows t ++ [r]; seq := seq t |} = true.
Proof.
  intros H. unfold taken. cbn [rows]. rewrite existsb_app. cbn [existsb].
  rewrite H. cbn [text_eq]. rewrite String.eqb_refl. apply orb_true_iff.
  right; reflexivity.
Qed.

(** ** One row per email *)

Lemma emails_unique_users d d' :
  users d' = users d -> emails_unique d -> emails_unique d'.
Proof. intros E H s. rewrite E. apply H. Qed.

Lemma emails_unique_append d u n :
  taken User.email (User.email u) (users d) = false ->
  emails_unique d ->
  emails_unique (set_users {| rows := rows (users d) ++ [u]; seq := n |} d).
Proof.
  intros Hfree H s. cbn [set_users users rows].
  rewrite filter_app, length_app. cbn [filter].
  destruct (text_eq (User.email u) (Some s)) eqn:E.
  - apply text_eq_Some in E. rewrite E in Hfree.
    unfold taken in Hfree. rewrite (existsb_false_filter _ _ Hfree).
    cbn. lia.
  - cbn [List.length]. specialize (H s). lia.
Qed.

Lemma app_keeps_emails_unique : Forall (keeps emails_unique) app.
Proof.
  unfold app, routes.
  repeat apply Forall_cons; try apply Forall_nil; try exact I;
    intros e f ps d Hd; run_handler;
    try (destruct (hd_error _); exact Hd); try exact Hd.
  - destruct (Body.password f) as [pw|]; cbn; [|exact Hd].
    destruct (taken User.email (Body.email f) (users d)) eqn:T; cbn;
      [exact Hd|].
    apply (emails_unique_append d
             {| User.id := new_rowid User.id (users d);
                User.name := Body.name f; User.email := Body.email f;
                User.password := Some (hash e pw) |}); assumption.
  - destruct (hd_error _) as [u|]; cbn; [|exact Hd].
    destruct (Body.password f), (User.password u); cbn; try exact Hd.
    destruct (negb _); exact Hd.
  - destruct (taken _ _ _); cbn; exact Hd.
  - destruct (_ && _); cbn; exact Hd.
Qed.

Lemma reachable_emails_unique d : reachable d -> emails_unique d.
Proof.
  induction 1 as [|e req d _ IH].
  - intros s. cbn. lia.
  - exact (dispatch_keeps emails_unique app app_keeps_emails_unique
             None e req d IH).
Qed.

(** C7.  Registering with an email no user row holds yet (and with a
    password) answers 201 with a positive user id; registering again with
    the same email is answered with status 500 and adds no row.  In every
    state the store reaches from a fresh file, at most one user row holds any
    given email. *)
Theorem one_user_per_email e e' f f' d s pw :
  Body.email f = Some s ->
  Body.password f = Some pw ->
  Body.email f' = Some s ->
  taken User.email (Some s) (users d) = false ->
  let first := handle e (POST_to register_url f) d in
  let second := handle e' (POST_to register_url f') (snd first) in
  (exists n,
      0 < n
      /\ fst first
         = res_json 201
             (Jobject [message "User registered successfully";
                       ("userId", Jint n)]))
  /\ (exists err, fst second = {| status := 500; sent := error_page err |})
  /\ snd second = snd first
  /\ (forall d0, reachable d0 -> emails_unique d0).
Proof.
  intros Hs Hpw Hs' Hfree first second.
  assert (E1 : first
               = (res_json 201
                    (Jobject [message "User registered successfully";
                              ("userId", Jint (new_rowid User.id (users d)))]),
                  set_users
                    {| rows := rows (users d)
                               ++ [user_row f (hash e pw)
                                     (new_rowid User.id (users d))];
                       seq := new_rowid User.id (users d) |}
                    d)).
  { unfold first. rewrite handle_register, Hpw, Hs, Hfree. reflexivity. }
  assert (E2 : exists err,
             second = ({| status := 500; sent := error_page err |}, snd first)).
  { unfold second. rewrite handle_register.
    destruct (Body.password f') as [pw'|]; [|eexists; reflexivity].
    rewrite Hs', E1. cbn [snd set_users users].
    rewrite (taken_after_append User.email s
               {| rows := rows (users d);
                  seq := new_rowid User.id (users d) |})
      by (cbn; exact Hs).
    eexists; reflexivity. }
  split; [|split; [|split]].
  - exists (new_rowid User.id (users d)). split; [apply new_rowid_positive|].
    rewrite E1. reflexivity.
  - destruct E2 as [err E2]. exists err. rewrite E2. reflexivity.
  - destruct E2 as [err E2]. rewrite E2. reflexivity.
  - exact reachable_emails_unique.
Qed.

(** * The theorems on sample data *)

Lemma duplicate_registration_gets_default_page :
  let req := POST_to register_url ann in
  let err := SQLITE_CONSTRAINT "UNIQUE constraint failed: users.email" in
  handle sample_env req ann_registered
  = ({| status := 500; sent := error_page err |}, ann_registered)
  /\ fst (handle sample_env req ann_registered) <> envelope err.
Proof.
  apply (propagated_failure_gets_default_page
           sample_env POST register_url ann ann_registered register []).
  - reflexivity.
  - reflexivity.
Defined.

Lemma lowest_of_three_wins :
  exists b,
    handle sample_env (GET_from (winning_url "1") Body.empty) three_bids
    = (res_json 200 (Jobject [("winningBid", Bid.to_json b)]), three_bids)
    /\ Bid.id b = 2
    /\ Bid.amount b = Some (50 # 1).
Proof.
  destruct (winning_bid_is_minimal sample_env Body.empty three_bids "1")
    as (b & H & Hin & _ & _ & _ & _ & _ & H50 & _).
  - vm_compute. discriminate.
  - exists b. split; [exact H|].
    assert (A : Bid.amount b = Some (50 # 1))
      by (apply H50; exact (Permutation_refl _)).
    split; [|exact A].
    vm_compute in Hin.
    destruct Hin as [<-|[<-|[<-|[]]]]; first [reflexivity|discriminate A].
Defined.

Lemma no_winner_on_another_rfp :
  handle sample_env (GET_from (winning_url "2") Body.empty) three_bids
  = (res_json 404 (Jobject [message "No bids found for this RFP"]), three_bids).
Proof. exact (no_bids_no_winner sample_env Body.empty three_bids "2" eq_refl). Defined.

Lemma ann_registers_once :
  let first := handle sample_env (POST_to register_url ann) initDb in
  let second := handle sample_env (POST_to register_url ann) (snd first) in
  (exists n,
      0 < n
      /\ fst first
         = res_json 201
             (Jobject [message "User registered successfully";
                       ("userId", Jint n)]))
  /\ (exists err, fst second = {| status := 500; sent := error_page err |})
  /\ snd second = snd first
  /\ (forall d0, reachable d0 -> emails_unique d0).
Proof.
  exact (one_user_per_email sample_env sample_env ann ann initDb
           "ann@example.com" "s3cret" eq_refl eq_refl eq_refl eq_refl).
Defined.

Lemma orphan_bid_accepted :
  handle sample_env (POST_to bids_url (offer 100)) initDb
  = (res_json 201
       (Jobject [message "Bid submitted successfully"; ("bidId", Jint 1)]),
     set_bids {| rows := [bid_row sample_env (offer 100) 1]; seq := 1 |} initDb)
  /\ rows (rfps initDb) = []
  /\ rows (suppliers initDb) = [].
Proof.
  split; [|split; reflexivity].
  exact (proj1 (bid_submission_checks_no_reference
                  sample_env (offer 100) initDb eq_refl)).
Defined.

(** * Every request *)

Lemma first_route_matches stack m u h ps :
  first_route stack m u = Some (h, ps) ->
  exists m' p,
    In (route m' p h) stack
    /\ verb_eqb m' m = true
    /\ match_path p u = Some ps.
Proof.
  induction stack as [|l stack IH]; [discriminate|].
  destruct l as [| |m' p h']; cbn [first_route]; intros H.
  1,2: destruct (IH H) as (m1 & p1 & Hin & Hm); exists m1, p1;
       split; [right; exact Hin|exact Hm].
  destruct (verb_eqb m' m) eqn:Em.
  - destruct (match_path p u) as [ps'|] eqn:Ep.
    + injection H as -> ->. exists m', p.
      split; [left; reflexivity|split; assumption].
    + destruct (IH H) as (m1 & p1 & Hin & Hm); exists m1, p1;
        split; [right; exact Hin|exact Hm].
  - destruct (IH H) as (m1 & p1 & Hin & Hm); exists m1, p1;
      split; [right; exact Hin|exact Hm].
Qed.

Lemma verb_eqb_eq a b : verb_eqb a b = true -> a = b.
Proof. destruct a, b; cbn; congruence. Qed.

Lemma dispatch_route_sends stack e m u f d h ps r d' :
  Forall is_route stack ->
  first_route stack m u = Some (h, ps) ->
  h e f ps d = (send r, d') ->
  dispatch stack None e {| method := m; url := u; body := parsed f |} d
  = (r, d').
Proof.
  intros Hstack. revert h ps.
  induction Hstack as [|l stack Hl Hs IH]; intros h ps; [discriminate|].
  destruct l as [| |m' p h']; try contradiction.
  cbn [first_route dispatch method url body].
  destruct (verb_eqb m' m); [|exact (IH h ps)].
  destruct (match_path p u) as [ps'|]; [|exact (IH h ps)].
  intros [= -> ->] Hh. rewrite Hh. reflexivity.
Qed.

Lemma dispatch_unrouted stack e req d :
  Forall is_route stack ->
  first_route stack (method req) (url req) = None ->
  dispatch stack None e req d = (finalhandler None req, d).
Proof.
  induction 1 as [|l stack Hl Hs IH]; [reflexivity|].
  destruct l as [| |m' p h']; try contradiction.
  cbn [first_route dispatch].
  destruct (verb_eqb m' (method req)); [|exact IH].
  destruct (match_path p (url req)); [discriminate|exact IH].
Qed.

Lemma try_catch_answers (m : io response) d d' : try_catch m d <> (next, d').
Proof. unfold try_catch. destruct (m d) as [[r|err] d1]; discriminate. Qed.

Lemma routes_answer : Forall answers routes.
Proof.
  unfold routes.
  repeat apply Forall_cons; try apply Forall_nil;
    intros e f ps d d'; apply try_catch_answers.
Qed.

(** Every request is dealt with in one of the five ways of [served]. *)
Lemma handle_served e req d : served e req d (handle e req d).
Proof.
  destruct req as [m u b].
  destruct (verb_eqb m OPTIONS) eqn:Em.
  { apply verb_eqb_eq in Em. subst m. apply served_preflight. reflexivity. }
  assert (Hm : m <> OPTIONS) by (intros ->; discriminate Em).
  destruct b as [why|f].
  { rewrite malformed_body_reaches_error_handler by exact Hm.
    apply served_malformed; [exact Hm|reflexivity]. }
  rewrite handle_routes by exact Hm.
  destruct (first_route routes m u) as [[h ps]|] eqn:Er.
  - destruct (h e f ps d) as [[r| |err] d'] eqn:Eh.
    + rewrite (dispatch_route_sends routes e m u f d h ps r d'
                 routes_are_routes Er Eh).
      exact (served_sent e (Build_request m u (parsed f)) d f h ps r d'
               eq_refl Er Eh).
    + destruct (first_route_matches _ _ _ _ _ Er) as (m' & p & Hin & _).
      pose proof (proj1 (Forall_forall _ _) routes_answer _ Hin) as Ha.
      destruct (Ha e f ps d d' Eh).
    + rewrite (dispatch_route_fails routes e m u f d h ps err d'
                 routes_are_routes Er Eh).
      destruct (first_route_matches _ _ _ _ _ Er) as (m' & p & Hin & _).
      pose proof (proj1 (Forall_forall _ _) routes_fail_plainly _ Hin) as Hp.
      cbn in Hp. unfold finalhandler. rewrite (Hp _ _ _ _ _ _ Eh).
      exact (served_failed e (Build_request m u (parsed f)) d f h ps err d'
               eq_refl Er Eh).
  - rewrite dispatch_unrouted by (exact routes_are_routes || exact Er).
    exact (served_unrouted e (Build_request m u (parsed f)) d f Hm eq_refl Er).
Qed.

(** A relation that is reflexive and transitive and that every route
    respects holds between the store before and after any request. *)
Lemma handle_relates (R : db -> db -> Prop) :
  (forall d, R d d) ->
  (forall a b c, R a b -> R b c -> R a c) ->
  Forall (relates R) routes ->
  forall e req d, R d (snd (handle e req d)).
Proof.
  intros Hrefl Htrans Hroutes e req d.
  apply (dispatch_keeps (fun d' => R d d') app); [|apply Hrefl].
  unfold app. repeat (apply Forall_cons; [exact I|]).
  eapply Forall_impl; [|exact Hroutes].
  intros [| |m p h]; cbn; try exact (fun _ => I).
  intros Hh e0 f ps d1 Hd1. eapply Htrans; [exact Hd1|apply Hh].
Qed.


(** X2.  A request whose JSON body does not parse never reaches a route,
    whatever its path.  Unless it is an OPTIONS request, which [cors] answers
    204 before the body is read, the error handler middleware answers it
    with status 500 (not the parser's 400) and [{message: 'Internal server
    error', error}], where [error] is the parser's message.  The store is as
    it was in both cases. *)
Theorem unparsable_body_gets_envelope e m u why d :
  handle e {| method := m; url := u; body := malformed why |} d
  = (match m with
     | OPTIONS => {| status := 204; sent := no_content |}
     | _ =>
         res_json 500
           (Jobject [message "Internal server error"; ("error", Jstring why)])
     end,
     d).
Proof.
  destruct m; try reflexivity;
    apply malformed_body_reaches_error_handler; discriminate.
Qed.

Lemma unparsable_registration_gets_envelope :
  handle sample_env
    {| method := POST; url := register_url;
       body := malformed "Unexpected end of JSON input" |}
    three_bids
  = (res_json 500
       (Jobject [message "Internal server error";
                 ("error", Jstring "Unexpected end of JSON input")]),
     three_bids).
Proof.
  exact (unparsable_body_gets_envelope sample_env POST register_url
           "Unexpected end of JSON input" three_bids).
Defined.

Lemma routes_read_only : Forall reads_only routes.
Proof.
  unfold routes.
  repeat apply Forall_cons; try apply Forall_nil; try exact I;
    intros e f ps d; run_handler.
  - reflexivity.
  - destruct (hd_error _); reflexivity.
Qed.

(** X3.  GET and OPTIONS requests never change the store, whatever their
    path and body. *)
Theorem safe_methods_leave_the_store e u b d :
  snd (handle e {| method := GET; url := u; body := b |} d) = d
  /\ snd (handle e {| method := OPTIONS; url := u; body := b |} d) = d.
Proof.
  split; [|reflexivity].
  pose proof (handle_served e (Build_request GET u b) d) as S.
  destruct (handle e (Build_request GET u b) d) as [r0 d0].
  cbn [snd].
  inversion S as [ | why | f | f h ps r d' Hb Hr Hh | f h ps err d' Hb Hr Hh];
    subst; try reflexivity.
  - destruct (first_route_matches _ _ _ _ _ Hr) as (m' & p & Hin & Em & _).
    apply verb_eqb_eq in Em. cbn in Em. subst m'.
    pose proof (proj1 (Forall_forall _ _) routes_read_only _ Hin e f ps d) as H.
    rewrite Hh in H. exact H.
  - destruct (first_route_matches _ _ _ _ _ Hr) as (m' & p & Hin & Em & _).
    apply verb_eqb_eq in Em. cbn in Em. subst m'.
    pose proof (proj1 (Forall_forall _ _) routes_read_only _ Hin e f ps d) as H.
    rewrite Hh in H. exact H.
Qed.

Lemma routes_write_on_success : Forall writes_on_success routes.
Proof.
  unfold routes.
  repeat apply Forall_cons; try apply Forall_nil; try exact I;
    intros e f ps d; run_handler.
  - destruct (Body.password f); cbn; [|reflexivity].
    destruct (taken _ _ _); cbn; [reflexivity|right; right; reflexivity].
  - destruct (hd_error _) as [u|]; cbn; [|left; reflexivity].
    destruct (Body.password f), (User.password u); cbn; try reflexivity.
    destruct (negb _); left; reflexivity.
  - destruct (taken _ _ _); cbn; [reflexivity|right; right; reflexivity].
  - destruct (_ && _); cbn; [reflexivity|right; right; reflexivity].
  - right; left; reflexivity.
  - left; reflexivity.
  - right; right; reflexivity.
  - destruct (hd_error _); left; reflexivity.
Qed.

(** X4.  A request that is not answered 200 or 201 leaves the store exactly
    as it was: no handler writes before it fails, and a 401, 404 or 500
    answer never comes with a change. *)
Theorem only_success_changes_the_store e req d :
  status (fst (handle e req d)) <> 200 ->
  status (fst (handle e req d)) <> 201 ->
  snd (handle e req d) = d.
Proof.
  pose proof (handle_served e req d) as S.
  destruct (handle e req d) as [r0 d0]. cbn [fst snd].
  intros H200 H201.
  inversion S as [ | why | f | f h ps r d' Hb Hr Hh | f h ps err d' Hb Hr Hh];
    subst; try reflexivity.
  - destruct (first_route_matches _ _ _ _ _ Hr) as (m' & p & Hin & _).
    pose proof (proj1 (Forall_forall _ _) routes_write_on_success _ Hin
                  e f ps d) as H.
    cbn in H. rewrite Hh in H. destruct H as [H|[H|H]]; congruence.
  - destruct (first_route_matches _ _ _ _ _ Hr) as (m' & p & Hin & _).
    pose proof (proj1 (Forall_forall _ _) routes_write_on_success _ Hin
                  e f ps d) as H.
    cbn in H. rewrite Hh in H. exact H.
Qed.

(** * Rowids *)

Lemma sorted_snoc l n :
  StronglySorted Z.lt l -> Forall (fun i => i < n) l ->
  StronglySorted Z.lt (l ++ [n]).
Proof.
  induction 1 as [|x l Hs IH Hx]; intros Hn; cbn.
  - repeat constructor.
  - inversion Hn as [|? ? Hxn Hl]; subst.
    constructor; [apply IH, Hl|].
    apply Forall_app. split; [exact Hx|]. constructor; [exact Hxn|constructor].
Qed.

Lemma rowids_ok_append {R} (id : R -> Z) (r : R) t :
  id r = new_rowid id t ->
  rowids_ok id t ->
  rowids_ok id {| rows := rows t ++ [r]; seq := new_rowid id t |}.
Proof.
  intros Hr [Hs Hb]. unfold rowids_ok. cbn [rows seq].
  rewrite map_app. cbn [map]. rewrite Hr.
  assert (Hlt : Forall (fun i => i < new_rowid id t) (map id (rows t))).
  { eapply Forall_impl; [|exact Hb]. cbn. intros i Hi. unfold new_rowid. lia. }
  split.
  - apply sorted_snoc; assumption.
  - apply Forall_app. split.
    + eapply Forall_impl; [|exact Hb]. cbn. intros i Hi.
      unfold new_rowid. lia.
    + constructor; [|constructor].
      pose proof (new_rowid_positive id t). lia.
Qed.

Lemma rowids_ok_update (g : Bid.t -> Bid.t) t :
  (forall b, Bid.id (g b) = Bid.id b) ->
  rowids_ok Bid.id t ->
  rowids_ok Bid.id {| rows := map g (rows t); seq := seq t |}.
Proof.
  intros Hg H. unfold rowids_ok. cbn [rows seq]. rewrite map_map.
  rewrite (map_ext _ Bid.id) by exact Hg. exact H.
Qed.

Lemma app_keeps_rowids : Forall (keeps store_rowids_ok) app.
Proof.
  unfold app, routes.
  repeat apply Forall_cons; try apply Forall_nil; try exact I;
    intros e f ps d Hd; unfold register, login, onboard, submit_bid, evaluate,
      list_rfps, create_rfp, winning, try_catch, bind, ret, settle,
      bcrypt_hash, bcrypt_compare, dbGet, dbAll, dbRun, append;
    cbn beta iota;
    try (destruct (hd_error _); exact Hd); try exact Hd.
  - destruct (Body.password f) as [pw|]; cbn; [|exact Hd].
    destruct (taken _ _ _); cbn; [exact Hd|].
    destruct Hd as (Hu & Hrest). split; [|exact Hrest].
    apply (rowids_ok_append User.id); [reflexivity|exact Hu].
  - destruct (hd_error _) as [u|]; cbn; [|exact Hd].
    destruct (Body.password f), (User.password u); cbn; try exact Hd.
    destruct (negb _); exact Hd.
  - destruct (taken _ _ _); cbn; [exact Hd|].
    destruct Hd as (Hu & Hs & Hrest). split; [exact Hu|split; [|exact Hrest]].
    apply (rowids_ok_append Supplier.id); [reflexivity|exact Hs].
  - destruct (_ && _); cbn; [exact Hd|].
    destruct Hd as (Hu & Hs & Hr & Hb). split; [exact Hu|].
    split; [exact Hs|]. split; [exact Hr|].
    apply (rowids_ok_append Bid.id); [reflexivity|exact Hb].
  - destruct Hd as (Hu & Hs & Hr & Hb). split; [exact Hu|].
    split; [exact Hs|]. split; [exact Hr|].
    apply (rowids_ok_update
             (fun b => if rfpId_eq e (Bid.rfpId b) (bind_integer (Body.rfpId f))
                       then Bid.set_status (Some "evaluated") b else b));
      [|exact Hb].
    intros b. destruct (rfpId_eq _ _ _); reflexivity.
  - destruct Hd as (Hu & Hs & Hr & Hb). split; [exact Hu|].
    split; [exact Hs|]. split; [|exact Hb].
    apply (rowids_ok_append Rfp.id); [reflexivity|exact Hr].
Qed.

Lemma strictly_sorted_NoDup l : StronglySorted Z.lt l -> NoDup l.
Proof.
  induction 1 as [|x l Hs IH Hx]; constructor; [|exact IH].
  intros Hin. pose proof (proj1 (Forall_forall _ _) Hx x Hin). lia.
Qed.

(** X5.  In every state the store reaches from a fresh file, in each of the
    four tables the ids are positive, increase along the rows, are therefore
    pairwise distinct, and none exceeds the table's AUTOINCREMENT counter. *)
Theorem rowids_are_unique_and_positive d :
  reachable d ->
  store_rowids_ok d
  /\ NoDup (map User.id (rows (users d)))
  /\ NoDup (map Supplier.id (rows (suppliers d)))
  /\ NoDup (map Rfp.id (rows (rfps d)))
  /\ NoDup (map Bid.id (rows (bids d))).
Proof.
  intros Hd.
  assert (H : store_rowids_ok d).
  { induction Hd as [|e req d _ IH].
    - repeat split; constructor.
    - exact (dispatch_keeps store_rowids_ok app app_keeps_rowids
               None e req d IH). }
  split; [exact H|].
  destruct H as ((Hu & _) & (Hs & _) & (Hr & _) & (Hb & _)).
  repeat split; apply strictly_sorted_NoDup; assumption.
Qed.

Lemma reachable_after e reqs d : reachable d -> reachable (after e reqs d).
Proof.
  revert d. induction reqs as [|req reqs IH]; intros d Hd; [exact Hd|].
  apply IH. apply reachable_step, Hd.
Qed.

Lemma rowids_at_three_bids :
  store_rowids_ok three_bids
  /\ NoDup (map User.id (rows (users three_bids)))
  /\ NoDup (map Supplier.id (rows (suppliers three_bids)))
  /\ NoDup (map Rfp.id (rows (rfps three_bids)))
  /\ NoDup (map Bid.id (rows (bids three_bids))).
Proof.
  apply rowids_are_unique_and_positive.
  apply reachable_after, reachable_init.
Defined.

(** * POST /api/suppliers/onboard *)

Lemma handle_onboard e f d :
  handle e (POST_to onboard_url f) d
  = if taken Supplier.registrationNumber (Body.registrationNumber f)
         (suppliers d)
    then ({| status := 500;
             sent := error_page
                       (SQLITE_CONSTRAINT
                          "UNIQUE constraint failed: suppliers.registrationNumber")
          |}, d)
    else
      let n := new_rowid Supplier.id (suppliers d) in
      (res_json 201
         (Jobject [message "Supplier onboarded successfully";
                   ("supplierId", Jint n)]),
       set_suppliers
         {| rows := rows (suppliers d) ++ [supplier_row f n]; seq := n |} d).
Proof.
  unfold handle, app, routes, POST_to, onboard_url.
  cbn -[taken finalhandler new_rowid].
  unfold onboard, try_catch, bind, dbRun, ret, append.
  cbn -[taken new_rowid].
  destruct (taken _ _ _); reflexivity.
Qed.

Lemma registrations_unique_append d r n :
  taken Supplier.registrationNumber (Supplier.registrationNumber r)
    (suppliers d) = false ->
  registrations_unique d ->
  registrations_unique
    (set_suppliers {| rows := rows (suppliers d) ++ [r]; seq := n |} d).
Proof.
  intros Hfree H s. cbn [set_suppliers suppliers rows].
  rewrite filter_app, length_app. cbn [filter].
  destruct (text_eq (Supplier.registrationNumber r) (Some s)) eqn:E.
  - apply text_eq_Some in E. rewrite E in Hfree.
    unfold taken in Hfree. rewrite (existsb_false_filter _ _ Hfree).
    cbn. lia.
  - cbn [List.length]. specialize (H s). lia.
Qed.

Lemma app_keeps_registrations_unique : Forall (keeps registrations_unique) app.
Proof.
  unfold app, routes.
  repeat apply Forall_cons; try apply Forall_nil; try exact I;
    intros e f ps d Hd; run_handler;
    try (destruct (hd_error _); exact Hd); try exact Hd.
  - destruct (Body.password f) as [pw|]; cbn; [|exact Hd].
    destruct (taken _ _ _); cbn; exact Hd.
  - destruct (hd_error _) as [u|]; cbn; [|exact Hd].
    destruct (Body.password f), (User.password u); cbn; try exact Hd.
    destruct (negb _); exact Hd.
  - destruct (taken Supplier.registrationNumber (Body.registrationNumber f)
                (suppliers d)) eqn:T; cbn; [exact Hd|].
    apply (registrations_unique_append d
             {| Supplier.id := new_rowid Supplier.id (suppliers d);
                Supplier.name := Body.name f;
                Supplier.registrationNumber := Body.registrationNumber f;
                Supplier.address := Body.address f |}); assumption.
  - destruct (_ && _); cbn; exact Hd.
Qed.

Lemma reachable_registrations_unique d :
  reachable d -> registrations_unique d.
Proof.
  induction 1 as [|e req d _ IH].
  - intros s. cbn. lia.
  - exact (dispatch_keeps registrations_unique app
             app_keeps_registrations_unique None e req d IH).
Qed.

(** X6.  Onboarding a supplier under a registration number no supplier row
    holds yet answers 201 with a positive supplier id that no earlier row
    has; onboarding again under the same number is answered 500 and adds no
    row.  In every state the store reaches from a fresh file, at most one
    supplier row holds any given registration number. *)
Theorem one_supplier_per_registration e e' f f' d s :
  Body.registrationNumber f = Some s ->
  Body.registrationNumber f' = Some s ->
  taken Supplier.registrationNumber (Some s) (suppliers d) = false ->
  let n := new_rowid Supplier.id (suppliers d) in
  let first := handle e (POST_to onboard_url f) d in
  let second := handle e' (POST_to onboard_url f') (snd first) in
  first
  = (res_json 201
       (Jobject [message "Supplier onboarded successfully";
                 ("supplierId", Jint n)]),
     set_suppliers
       {| rows := rows (suppliers d) ++ [supplier_row f n]; seq := n |} d)
  /\ 0 < n
  /\ ~ In n (map Supplier.id (rows (suppliers d)))
  /\ second
     = ({| status := 500;
           sent := error_page
                     (SQLITE_CONSTRAINT
                        "UNIQUE constraint failed: suppliers.registrationNumber")
        |}, snd first)
  /\ (forall d0, reachable d0 -> registrations_unique d0).
Proof.
  intros Hs Hs' Hfree n first second.
  assert (E1 : first
               = (res_json 201
                    (Jobject [message "Supplier onboarded successfully";
                              ("supplierId", Jint n)]),
                  set_suppliers
                    {| rows := rows (suppliers d) ++ [supplier_row f n];
                       seq := n |} d)).
  { unfold first. rewrite handle_onboard, Hs, Hfree. reflexivity. }
  split; [exact E1|].
  split; [apply new_rowid_positive|].
  split; [apply new_rowid_fresh|].
  split; [|exact reachable_registrations_unique].
  unfold second. rewrite handle_onboard, Hs', E1.
  cbn [snd set_suppliers suppliers].
  rewrite (taken_after_append Supplier.registrationNumber s
             {| rows := rows (suppliers d); seq := n |})
    by (cbn; exact Hs).
  reflexivity.
Qed.

Lemma acme_onboards_once :
  let first := handle sample_env (POST_to onboard_url acme) initDb in
  let second := handle sample_env (POST_to onboard_url acme) (snd first) in
  fst first
  = res_json 201
      (Jobject [message "Supplier onboarded successfully";
                ("supplierId", Jint 1)])
  /\ status (fst second) = 500
  /\ snd second = snd first.
Proof.
  destruct (one_supplier_per_registration sample_env sample_env acme acme
              initDb "RC-1" eq_refl eq_refl eq_refl)
    as (E1 & _ & _ & E2 & _).
  cbv zeta. rewrite E2, E1. repeat split.
Defined.

(** * POST /api/rfps and GET /api/rfps *)

Lemma handle_create_rfp e f d :
  handle e (POST_to rfps_url f) d
  = (res_json 201
       (Jobject [message "RFP created successfully";
                 ("rfpId", Jint (new_rowid Rfp.id (rfps d)))]),
     set_rfps
       {| rows := rows (rfps d) ++ [rfp_row e f (new_rowid Rfp.id (rfps d))];
          seq := new_rowid Rfp.id (rfps d) |} d).
Proof. reflexivity. Qed.

Lemma handle_list_rfps e f d :
  handle e (GET_from rfps_url f) d
  = (res_json 200 (Jarray (map Rfp.to_json (rows (rfps d)))), d).
Proof. reflexivity. Qed.

(** X7.  Creating an RFP always succeeds, with 201 and an id no earlier RFP
    has; a listing taken right after returns every earlier RFP as it was
    listed before, followed by the new one with the title and description of
    the request, and exactly one listed RFP carries the new id. *)
Theorem created_rfp_is_listed_once e e' f f' d :
  let n := new_rowid Rfp.id (rfps d) in
  let created := handle e (POST_to rfps_url f) d in
  fst created
  = res_json 201
      (Jobject [message "RFP created successfully"; ("rfpId", Jint n)])
  /\ ~ In n (map Rfp.id (rows (rfps d)))
  /\ handle e' (GET_from rfps_url f') (snd created)
     = (res_json 200
          (Jarray (map Rfp.to_json (rows (rfps d))
                   ++ [Rfp.to_json (rfp_row e f n)])),
        snd created)
  /\ List.length
       (filter (fun r => Z.eqb (Rfp.id r) n) (rows (rfps (snd created))))
     = 1%nat.
Proof.
  intros n created. unfold created. rewrite handle_create_rfp. fold n.
  cbn [fst snd]. split; [reflexivity|].
  split; [apply new_rowid_fresh|]. split.
  - rewrite handle_list_rfps. cbn [set_rfps rfps rows].
    rewrite map_app. reflexivity.
  - cbn [set_rfps rfps rows]. rewrite filter_app, length_app.
    cbn [filter rfp_row Rfp.id]. rewrite Z.eqb_refl. cbn [List.length].
    assert (E : filter (fun r => Z.eqb (Rfp.id r) n) (rows (rfps d)) = []).
    { apply existsb_false_filter.
      destruct (existsb _ _) eqn:X; [|reflexivity].
      apply existsb_exists in X. destruct X as (r & Hin & Hr).
      apply Z.eqb_eq in Hr.
      destruct (new_rowid_fresh Rfp.id (rfps d)).
      fold n. rewrite <- Hr. apply in_map, Hin. }
    rewrite E. reflexivity.
Qed.

(** * Registration and login together *)

Lemma select_new_user e d u s :
  User.email u = Some s ->
  taken User.email (Some s) (users d) = false ->
  select e (SELECT_users_WHERE_email (Some s))
    (set_users {| rows := rows (users d) ++ [u];
                  seq := new_rowid User.id (users d) |} d)
  = [u].
Proof.
  intros Hu Hfree. cbn [select set_users users rows].
  rewrite filter_app. unfold taken in Hfree.
  rewrite (existsb_false_filter _ _ Hfree). cbn [Datatypes.app filter].
  rewrite Hu. cbn [text_eq]. rewrite String.eqb_refl. reflexivity.
Qed.

(** X8.  After a registration that succeeded, a login with the same email
    is decided by [bcrypt.compare] on the hash that registration stored:
    when it accepts the password the answer is 200 with the very id
    registration returned, and when it does not the answer is 401.  The
    login leaves the store as registration left it. *)
Theorem login_returns_the_registered_id e e' f g d s pw guess :
  Body.email f = Some s ->
  Body.password f = Some pw ->
  taken User.email (Some s) (users d) = false ->
  Body.email g = Some s ->
  Body.password g = Some guess ->
  let n := new_rowid User.id (users d) in
  let registered := handle e (POST_to register_url f) d in
  fst registered
  = res_json 201
      (Jobject [message "User registered successfully"; ("userId", Jint n)])
  /\ handle e' (POST_to login_url g) (snd registered)
     = (if compare e' guess (hash e pw)
        then res_json 200
               (Jobject [message "Login successful"; ("userId", Jint n)])
        else res_json 401 (Jobject [message "Invalid credentials"]),
        snd registered).
Proof.
  intros Hs Hpw Hfree Hgs Hgp n registered. subst n.
  set (n := new_rowid User.id (users d)) in *.
  assert (E : registered
              = (res_json 201
                   (Jobject [message "User registered successfully";
                             ("userId", Jint n)]),
                 set_users
                   {| rows := rows (users d) ++ [user_row f (hash e pw) n];
                      seq := n |} d)).
  { unfold registered. rewrite handle_register, Hpw, Hs, Hfree. reflexivity. }
  rewrite E. cbn [fst snd]. split; [reflexivity|].
  rewrite handle_login, Hgs.
  unfold n.
  rewrite (select_new_user e' d
             (user_row f (hash e pw) (new_rowid User.id (users d))) s)
    by (cbn; assumption).
  cbn [hd_error user_row User.password User.id]. rewrite Hgp.
  destruct (compare e' guess (hash e pw)); reflexivity.
Qed.

Lemma ann_logs_in_with_her_id :
  fst (handle sample_env (POST_to register_url ann) initDb)
  = res_json 201
      (Jobject [message "User registered successfully"; ("userId", Jint 1)])
  /\ fst (handle sample_env (POST_to login_url ann) ann_registered)
     = res_json 200 (Jobject [message "Login successful"; ("userId", Jint 1)]).
Proof.
  destruct (login_returns_the_registered_id sample_env sample_env ann ann
              initDb "ann@example.com" "s3cret" "s3cret"
              eq_refl eq_refl eq_refl eq_refl eq_refl) as (E1 & E2).
  split; [exact E1|].
  change ann_registered
    with (snd (handle sample_env (POST_to register_url ann) initDb)).
  rewrite E2. reflexivity.
Defined.

(** X9.  A login request without a password tells a registered email from
    an unknown one: with no user row for the email the answer is 401
    'Invalid credentials'; with one, [bcrypt.compare] rejects the missing
    argument and the answer is 500 with Express's error page. *)
Theorem login_without_password e f d :
  Body.password f = None ->
  let found := select e (SELECT_users_WHERE_email (Body.email f)) d in
  (found = [] ->
   handle e (POST_to login_url f) d
   = (res_json 401 (Jobject [message "Invalid credentials"]), d))
  /\ (found <> [] ->
      handle e (POST_to login_url f) d
      = ({| status := 500;
            sent := error_page
                      (plain_error "data and hash arguments required") |}, d)).
Proof.
  intros Hp found. rewrite handle_login. fold found. rewrite Hp. split.
  - intros ->. reflexivity.
  - destruct found as [|u rest]; [congruence|reflexivity].
Qed.

Lemma login_without_password_probes_ann :
  handle sample_env (POST_to login_url ann_without_password) initDb
  = (res_json 401 (Jobject [message "Invalid credentials"]), initDb)
  /\ handle sample_env (POST_to login_url ann_without_password) ann_registered
     = ({| status := 500;
           sent := error_page
                     (plain_error "data and hash arguments required") |},
        ann_registered).
Proof.
  split.
  - apply (login_without_password sample_env ann_without_password initDb
             eq_refl). reflexivity.
  - apply (login_without_password sample_env ann_without_password
             ann_registered eq_refl). discriminate.
Defined.

Lemma app_keeps_passwords_present : Forall (keeps passwords_present) app.
Proof.
  unfold app, routes.
  repeat apply Forall_cons; try apply Forall_nil; try exact I;
    intros e f ps d Hd; run_handler;
    try (destruct (hd_error _); exact Hd); try exact Hd.
  - destruct (Body.password f) as [pw|]; cbn; [|exact Hd].
    destruct (taken _ _ _); cbn; [exact Hd|].
    unfold passwords_present. cbn [set_users users rows].
    apply Forall_app. split; [exact Hd|].
    constructor; [discriminate|constructor].
  - destruct (hd_error _) as [u|]; cbn; [|exact Hd].
    destruct (Body.password f), (User.password u); cbn; try exact Hd.
    destruct (negb _); exact Hd.
  - destruct (taken _ _ _); cbn; exact Hd.
  - destruct (_ && _); cbn; exact Hd.
Qed.

Lemma reachable_passwords_present d : reachable d -> passwords_present d.
Proof.
  induction 1 as [|e req d _ IH]; [constructor|].
  exact (dispatch_keeps passwords_present app app_keeps_passwords_present
           None e req d IH).
Qed.

(** X10.  In every state the store reaches from a fresh file every user row
    holds a password hash, so a login request that carries a password is
    always answered 200 or 401, never 500, and leaves the store as it was. *)
Theorem login_with_password_is_decided e f d pw :
  reachable d ->
  Body.password f = Some pw ->
  passwords_present d
  /\ (status (fst (handle e (POST_to login_url f) d)) = 200
      \/ status (fst (handle e (POST_to login_url f) d)) = 401)
  /\ snd (handle e (POST_to login_url f) d) = d.
Proof.
  intros Hd Hp. pose proof (reachable_passwords_present d Hd) as Hpp.
  split; [exact Hpp|]. rewrite handle_login, Hp.
  destruct (select e (SELECT_users_WHERE_email (Body.email f)) d)
    as [|u rest] eqn:E; cbn [hd_error].
  - split; [right|]; reflexivity.
  - assert (Hu : User.password u <> None).
    { apply (proj1 (Forall_forall _ _) Hpp).
      assert (Hin : In u (select e (SELECT_users_WHERE_email (Body.email f)) d))
        by (rewrite E; left; reflexivity).
      cbn [select] in Hin. apply filter_In in Hin. exact (proj1 Hin). }
    destruct (User.password u) as [h|]; [|congruence].
    destruct (compare e pw h); (split; [|reflexivity]); [left|right];
      reflexivity.
Qed.

Lemma ann_login_is_decided :
  passwords_present ann_registered
  /\ (status (fst (handle sample_env (POST_to login_url ann) ann_registered))
      = 200
      \/ status (fst (handle sample_env (POST_to login_url ann) ann_registered))
         = 401)
  /\ snd (handle sample_env (POST_to login_url ann) ann_registered)
     = ann_registered.
Proof.
  apply (login_with_password_is_decided sample_env ann ann_registered "s3cret").
  - apply reachable_after, reachable_init.
  - reflexivity.
Defined.

Lemma largest_snoc ids n : largest (ids ++ [n]) = Z.max (largest ids) n.
Proof.
  unfold largest. induction ids as [|x ids IH].
  - cbn [Datatypes.app fold_right]. lia.
  - rewrite <- app_comm_cons. cbn [fold_right]. rewrite IH. lia.
Qed.

(** X11.  A registration without an email (but with a password) is accepted
    whatever the users table holds, since UNIQUE does not constrain NULL: two
    such registrations in a row both answer 201, with consecutive ids, and
    leave two rows without an email. *)
Theorem registration_without_email_repeats e e' f f' d pw pw' :
  Body.email f = None -> Body.password f = Some pw ->
  Body.email f' = None -> Body.password f' = Some pw' ->
  let n := new_rowid User.id (users d) in
  let first := handle e (POST_to register_url f) d in
  let second := handle e' (POST_to register_url f') (snd first) in
  fst first
  = res_json 201
      (Jobject [message "User registered successfully"; ("userId", Jint n)])
  /\ fst second
     = res_json 201
         (Jobject [message "User registered successfully";
                   ("userId", Jint (n + 1))])
  /\ rows (users (snd second))
     = (rows (users d)
        ++ [user_row f (hash e pw) n; user_row f' (hash e' pw') (n + 1)])%list.
Proof.
  intros Hs Hpw Hs' Hpw' n first second.
  assert (T : forall t : table User.t, taken User.email None t = false).
  { intros t. unfold taken. induction (rows t) as [|u l IH]; cbn; [reflexivity|].
    destruct (User.email u); exact IH. }
  assert (E1 : first
               = (res_json 201
                    (Jobject [message "User registered successfully";
                              ("userId", Jint n)]),
                  set_users
                    {| rows := rows (users d) ++ [user_row f (hash e pw) n];
                       seq := n |} d)).
  { unfold first. rewrite handle_register, Hpw, Hs, T. reflexivity. }
  assert (N : new_rowid User.id (users (snd first)) = n + 1).
  { rewrite E1. unfold new_rowid. cbn [snd set_users users rows seq].
    rewrite map_app. cbn [map user_row User.id]. rewrite largest_snoc.
    unfold n, new_rowid. lia. }
  split; [rewrite E1; reflexivity|].
  unfold second. rewrite handle_register, Hpw', Hs', T. cbv zeta. rewrite N.
  cbn [fst snd set_users users rows]. split; [reflexivity|].
  rewrite E1. cbn [snd set_users users rows]. rewrite <- app_assoc.
  reflexivity.
Qed.

Lemma bob_registers_twice :
  let first := handle sample_env (POST_to register_url bob_without_email)
                 initDb in
  let second := handle sample_env (POST_to register_url bob_without_email)
                  (snd first) in
  status (fst first) = 201 /\ status (fst second) = 201
  /\ List.length (rows (users (snd second))) = 2%nat.
Proof.
  destruct (registration_without_email_repeats sample_env sample_env
              bob_without_email bob_without_email initDb "hunter2" "hunter2"
              eq_refl eq_refl eq_refl eq_refl) as (E1 & E2 & E3).
  cbv zeta. rewrite E1, E2, E3. repeat split.
Defined.

(** * The life of a bid *)

Lemma app_keeps_statuses_known : Forall (keeps statuses_known) app.
Proof.
  unfold app, routes.
  repeat apply Forall_cons; try apply Forall_nil; try exact I;
    intros e f ps d Hd; run_handler;
    try (destruct (hd_error _); exact Hd); try exact Hd.
  - destruct (Body.password f) as [pw|]; cbn; [|exact Hd].
    destruct (taken _ _ _); cbn; exact Hd.
  - destruct (hd_error _) as [u|]; cbn; [|exact Hd].
    destruct (Body.password f), (User.password u); cbn; try exact Hd.
    destruct (negb _); exact Hd.
  - destruct (taken _ _ _); cbn; exact Hd.
  - destruct (_ && _); cbn; [exact Hd|].
    unfold statuses_known. cbn [set_bids bids rows].
    apply Forall_app. split; [exact Hd|].
    constructor; [left; reflexivity|constructor].
  - unfold statuses_known. cbn [snd set_bids bids rows].
    apply Forall_map. eapply Forall_impl; [|exact Hd].
    intros b Hb. cbn beta. destruct (rfpId_eq _ _ _); [right; reflexivity|exact Hb].
Qed.

(** X12.  In every state the store reaches from a fresh file, every bid has
    status 'pending' or 'evaluated'; no request gives a bid any other
    status or none. *)
Theorem bid_status_is_pending_or_evaluated d :
  reachable d -> statuses_known d.
Proof.
  induction 1 as [|e req d _ IH]; [constructor|].
  exact (dispatch_keeps statuses_known app app_keeps_statuses_known
           None e req d IH).
Qed.

Lemma statuses_at_three_bids : statuses_known three_bids.
Proof.
  apply bid_status_is_pending_or_evaluated.
  apply reachable_after, reachable_init.
Defined.

Lemma extends_refl {A} (l : list A) : extends l l.
Proof. exists []. symmetry. apply app_nil_r. Qed.

Lemma extends_trans {A} (a b c : list A) :
  extends a b -> extends b c -> extends a c.
Proof.
  intros [x ->] [y ->]. exists (x ++ y)%list. symmetry. apply app_assoc.
Qed.

Lemma bid_progress_refl b : bid_progress b b.
Proof. unfold bid_progress. repeat split. left; reflexivity. Qed.

Lemma bid_progress_trans a b c :
  bid_progress a b -> bid_progress b c -> bid_progress a c.
Proof.
  unfold bid_progress.
  intros (I1 & R1 & S1 & A1 & D1 & C1 & T1) (I2 & R2 & S2 & A2 & D2 & C2 & T2).
  repeat split; try congruence.
  destruct T2 as [T2|T2]; [|right; exact T2].
  destruct T1 as [T1|T1]; [left|right]; congruence.
Qed.

Lemma progress_all_refl l : Forall2 bid_progress l l.
Proof. induction l; constructor; [apply bid_progress_refl|assumption]. Qed.

Lemma progress_all_trans a b c :
  Forall2 bid_progress a b -> Forall2 bid_progress b c ->
  Forall2 bid_progress a c.
Proof.
  intros H. revert c. induction H as [|x y a b Hxy _ IH]; intros c Hc.
  - inversion Hc. constructor.
  - inversion Hc as [|? z ? c' Hyz Hbc]; subst.
    constructor; [eapply bid_progress_trans; eassumption|apply IH, Hbc].
Qed.

Lemma grows_refl d : grows d d.
Proof.
  repeat split; try apply extends_refl.
  exists (rows (bids d)), []. split; [symmetry; apply app_nil_r|].
  apply progress_all_refl.
Qed.

Lemma grows_trans a b c : grows a b -> grows b c -> grows a c.
Proof.
  intros (U1 & S1 & R1 & k1 & a1 & E1 & P1) (U2 & S2 & R2 & k2 & a2 & E2 & P2).
  split; [eapply extends_trans; eassumption|].
  split; [eapply extends_trans; eassumption|].
  split; [eapply extends_trans; eassumption|].
  rewrite E1 in P2. apply Forall2_app_inv_l in P2.
  destruct P2 as (k2a & k2b & Pa & Pb & ->).
  exists k2a, (k2b ++ a2)%list. split.
  - rewrite E2. symmetry. apply app_assoc.
  - eapply progress_all_trans; eassumption.
Qed.

Lemma grows_users d t l :
  rows t = (rows (users d) ++ l)%list -> grows d (set_users t d).
Proof.
  intros E. split; [exists l; exact E|].
  destruct (grows_refl d) as (_ & H). exact H.
Qed.

Lemma routes_grow : Forall (relates grows) routes.
Proof.
  unfold routes.
  repeat apply Forall_cons; try apply Forall_nil;
    intros e f ps d; run_handler;
    try (destruct (hd_error _); apply grows_refl); try apply grows_refl.
  - destruct (Body.password f) as [pw|]; cbn; [|apply grows_refl].
    destruct (taken _ _ _); cbn; [apply grows_refl|].
    eapply grows_users. reflexivity.
  - destruct (hd_error _) as [u|]; cbn; [|apply grows_refl].
    destruct (Body.password f), (User.password u); cbn; try apply grows_refl.
    destruct (negb _); apply grows_refl.
  - destruct (taken _ _ _); cbn; [apply grows_refl|].
    destruct (grows_refl d) as (U & _ & R & B).
    split; [exact U|]. split; [eexists; reflexivity|]. split; assumption.
  - destruct (_ && _); cbn; [apply grows_refl|].
    destruct (grows_refl d) as (U & S & R & _).
    split; [exact U|]. split; [exact S|]. split; [exact R|].
    eexists _, _. split; [reflexivity|apply progress_all_refl].
  - destruct (grows_refl d) as (U & S & R & _).
    split; [exact U|]. split; [exact S|]. split; [exact R|].
    eexists _, []. cbn [snd set_bids bids rows].
    split; [symmetry; apply app_nil_r|].
    induction (rows (bids d)) as [|b l IH]; cbn [map]; constructor;
      [|exact IH].
    destruct (rfpId_eq _ _ _).
    + unfold bid_progress. repeat split. right; reflexivity.
    + apply bid_progress_refl.
  - destruct (grows_refl d) as (U & S & _ & B).
    split; [exact U|]. split; [exact S|].
    split; [eexists; reflexivity|exact B].
Qed.

Lemma progress_at l kept added i b :
  Forall2 bid_progress l kept -> nth_error l i = Some b ->
  exists b', nth_error (kept ++ added)%list i = Some b' /\ bid_progress b b'.
Proof.
  intros H. revert i. induction H as [|x y l kept Hxy _ IH]; intros i Hi.
  - destruct i; discriminate.
  - destruct i as [|i]; cbn in Hi |- *.
    + injection Hi as <-. exists y. split; [reflexivity|exact Hxy].
    + apply IH, Hi.
Qed.

(** X13.  No request deletes or rewrites anything but a bid's status: after
    any request, and so after any sequence of requests, the rows of users,
    suppliers and rfps are the earlier rows, unchanged and in place, with
    new rows only at the end; every earlier bid row is still in its place
    with the same id, rfpId, supplierId, amount, documents and createdAt,
    and its status is the earlier one or 'evaluated'.  A bid that is
    'evaluated' stays so. *)
Theorem store_only_grows e d :
  (forall req, grows d (snd (handle e req d)))
  /\ (forall reqs, grows d (after e reqs d))
  /\ (forall req i b,
        nth_error (rows (bids d)) i = Some b ->
        Bid.status b = Some "evaluated" ->
        exists b',
          nth_error (rows (bids (snd (handle e req d)))) i = Some b'
          /\ Bid.id b' = Bid.id b
          /\ Bid.status b' = Some "evaluated").
Proof.
  assert (Step : forall d0 req, grows d0 (snd (handle e req d0))).
  { intros d0 req.
    exact (handle_relates grows grows_refl grows_trans routes_grow e req d0). }
  split; [apply Step|]. split.
  - intros reqs. revert d. induction reqs as [|req reqs IH]; intros d.
    + apply grows_refl.
    + eapply grows_trans; [apply Step|]. apply IH.
  - intros req i b Hb Hs.
    destruct (Step d req) as (_ & _ & _ & kept & added & E & P).
    destruct (progress_at _ _ added _ _ P Hb) as (b' & Hb' & Hp).
    exists b'. rewrite E. split; [exact Hb'|].
    destruct Hp as (Hid & _ & _ & _ & _ & _ & [T|T]);
      split; congruence.
Qed.

(** * Bids and the winning bid together *)

(** X14.  A new bid whose amount is strictly below the amount of every bid
    the RFP already has is the winning bid from then on: GET
    /api/bids/winning/:rfpId right after the submission returns the new row,
    with status 'pending'. *)
Theorem lower_bid_becomes_the_winner e e' f g d z a seg :
  foreign_keys d = false ->
  Body.rfpId f = Some z ->
  Body.amount f = Some a ->
  integer_of_text e' seg = Some z ->
  (forall b, In b (bids_of e' (TEXT seg) d) ->
     exists y, Bid.amount b = Some y /\ (a < y)%Q) ->
  let submitted := handle e (POST_to bids_url f) d in
  handle e' (GET_from (winning_url seg) g) (snd submitted)
  = (res_json 200
       (Jobject [("winningBid",
                  Bid.to_json (bid_row e f (new_rowid Bid.id (bids d))))]),
     snd submitted).
Proof.
  intros Off Hz Ha Hseg Hlow submitted.
  set (new := bid_row e f (new_rowid Bid.id (bids d))).
  assert (E : bids_of e' (TEXT seg) (snd submitted)
              = (bids_of e' (TEXT seg) d ++ [new])%list).
  { unfold submitted. rewrite handle_submit_bid by exact Off.
    unfold bids_of. cbn [snd select set_bids bids rows].
    rewrite filter_app. cbn [filter]. fold new.
    assert (H : rfpId_eq e' (Bid.rfpId new) (TEXT seg) = true).
    { cbn. rewrite Hz. cbn. rewrite Hseg. apply Z.eqb_refl. }
    rewrite H. reflexivity. }
  rewrite handle_winning, winning_select, E.
  destruct (order_by_amount (bids_of e' (TEXT seg) d ++ [new])%list)
    as [|w rest] eqn:S.
  { apply order_by_amount_nil in S. destruct (bids_of e' (TEXT seg) d);
      discriminate S. }
  destruct (order_by_amount_first _ _ _ S) as [Hin Hmin].
  apply in_app_or in Hin. destruct Hin as [Hin|[<-|[]]]; [|reflexivity].
  exfalso. destruct (Hlow w Hin) as (y & Hy & Hlt).
  assert (Hn : In new (bids_of e' (TEXT seg) d ++ [new])%list)
    by (apply in_or_app; right; left; reflexivity).
  specialize (Hmin new Hn). rewrite Hy in Hmin. cbn in Hmin.
  rewrite Ha in Hmin. cbn in Hmin. apply Qle_bool_iff in Hmin.
  apply (Qlt_not_le _ _ Hlt Hmin).
Qed.

Lemma undercutting_three_bids :
  handle sample_env (GET_from (winning_url "1") Body.empty)
    (snd (handle sample_env (POST_to bids_url (offer 40)) three_bids))
  = (res_json 200
       (Jobject [("winningBid",
                  Bid.to_json (bid_row sample_env (offer 40) 4))]),
     snd (handle sample_env (POST_to bids_url (offer 40)) three_bids)).
Proof.
  apply (lower_bid_becomes_the_winner sample_env sample_env (offer 40)
           Body.empty three_bids 1 (inject_Z 40) "1");
    try reflexivity.
  intros b Hb. vm_compute in Hb.
  destruct Hb as [<-|[<-|[<-|[]]]]; eexists; (split; [reflexivity|]);
    reflexivity.
Defined.

Lemma evaluated_row_keeps e p b :
  Bid.amount (evaluated_row e p b) = Bid.amount b
  /\ Bid.rfpId (evaluated_row e p b) = Bid.rfpId b.
Proof. unfold evaluated_row. destruct (rfpId_eq _ _ _); split; reflexivity. Qed.

(** X15.  Evaluating an RFP never changes which bid wins, for any RFP: GET
    /api/bids/winning/:rfpId answers after the evaluation with the same row
    as before (or 404 as before), the row's status being 'evaluated' if it
    is a bid of the evaluated RFP and what it was otherwise. *)
Theorem evaluation_keeps_the_winner e e' f g d seg :
  let p := bind_integer (Body.rfpId f) in
  let d' := snd (handle e (POST_to evaluate_url f) d) in
  let w := hd_error
             (select e' (SELECT_bids_WHERE_rfpId_ORDER_BY_amount_ASC_LIMIT_1
                           (TEXT seg)) d) in
  handle e' (GET_from (winning_url seg) g) d = (winning_answer w, d)
  /\ handle e' (GET_from (winning_url seg) g) d'
     = (winning_answer (option_map (evaluated_row e p) w), d').
Proof.
  intros p d' w. split.
  - rewrite handle_winning. fold w. destruct w; reflexivity.
  - rewrite handle_winning.
    assert (E : select e' (SELECT_bids_WHERE_rfpId_ORDER_BY_amount_ASC_LIMIT_1
                             (TEXT seg)) d'
                = map (evaluated_row e p)
                    (select e' (SELECT_bids_WHERE_rfpId_ORDER_BY_amount_ASC_LIMIT_1
                                  (TEXT seg)) d)).
    { unfold d'. rewrite handle_evaluate. fold p.
      cbn [snd select set_bids bids rows].
      change (fun b => if rfpId_eq e (Bid.rfpId b) p
                       then Bid.set_status (Some "evaluated") b else b)
        with (evaluated_row e p).
      rewrite (filter_map_commute _ (evaluated_row e p))
        by (intros b; rewrite (proj2 (evaluated_row_keeps e p b)); reflexivity).
      rewrite order_by_amount_map
        by (intros b; apply (evaluated_row_keeps e p b)).
      apply firstn_map. }
    rewrite E. unfold w.
    destruct (select e' _ d) as [|b rest]; reflexivity.
Qed.

Lemma no_hit_no_change {A} (p : A -> bool) (h : A -> A) l :
  filter p l = [] -> map (fun x => if p x then h x else x) l = l.
Proof.
  induction l as [|a l IH]; cbn [filter map]; [reflexivity|].
  destruct (p a); [discriminate|]. intros E. rewrite (IH E). reflexivity.
Qed.

(** X16.  Evaluating an RFP that has no bids, and so also a request without
    an rfpId (NULL matches no row), answers 200 with [evaluatedBidsCount] 0
    and leaves the store exactly as it was. *)
Theorem evaluating_nothing_changes_nothing e f d :
  (bids_of e (bind_integer (Body.rfpId f)) d = [] ->
   handle e (POST_to evaluate_url f) d
   = (res_json 200
        (Jobject [message "Bids evaluated successfully";
                  ("evaluatedBidsCount", Jint 0)]), d))
  /\ (Body.rfpId f = None ->
      bids_of e (bind_integer (Body.rfpId f)) d = []).
Proof.
  split.
  - intros E. rewrite handle_evaluate. cbv zeta. rewrite E.
    unfold bids_of in E. cbn [select] in E.
    rewrite (no_hit_no_change _ _ _ E).
    destruct d as [u s r [br bs] fk]. reflexivity.
  - intros ->. unfold bids_of. cbn [select bind_integer].
    induction (rows (bids d)) as [|b l IH]; cbn [filter]; [reflexivity|].
    destruct (Bid.rfpId b); exact IH.
Qed.

Lemma rejected_registration_changes_nothing :
  status (fst (handle sample_env (POST_to register_url ann) ann_registered))
  = 500
  /\ snd (handle sample_env (POST_to register_url ann) ann_registered)
     = ann_registered.
Proof.
  split; [reflexivity|].
  apply (only_success_changes_the_store sample_env
           (POST_to register_url ann) ann_registered); discriminate.
Defined.

(** X17.  ORDER BY amount ASC sorts NULL before every number: as soon as
    one bid of an RFP has no amount, the winning bid of that RFP is a bid
    without an amount, however low the other bids are. *)
Theorem unpriced_bid_beats_priced_bids e g d seg b :
  In b (bids_of e (TEXT seg) d) ->
  Bid.amount b = None ->
  exists w,
    handle e (GET_from (winning_url seg) g) d
    = (res_json 200 (Jobject [("winningBid", Bid.to_json w)]), d)
    /\ In w (bids_of e (TEXT seg) d)
    /\ Bid.amount w = None.
Proof.
  intros Hb Hnone.
  destruct (order_by_amount (bids_of e (TEXT seg) d)) as [|w rest] eqn:S.
  { apply order_by_amount_nil in S. rewrite S in Hb. contradiction. }
  destruct (order_by_amount_first _ _ _ S) as [Hin Hmin].
  exists w. split; [|split; [exact Hin|]].
  - rewrite handle_winning, winning_select, S. reflexivity.
  - specialize (Hmin b Hb). rewrite Hnone in Hmin.
    destruct (Bid.amount w); [discriminate Hmin|reflexivity].
Qed.

Lemma unpriced_bid_wins_over_three :
  exists w,
    handle sample_env (GET_from (winning_url "1") Body.empty)
      (snd (handle sample_env (POST_to bids_url unpriced) three_bids))
    = (res_json 200 (Jobject [("winningBid", Bid.to_json w)]),
       snd (handle sample_env (POST_to bids_url unpriced) three_bids))
    /\ In w (bids_of sample_env (TEXT "1")
               (snd (handle sample_env (POST_to bids_url unpriced) three_bids)))
    /\ Bid.amount w = None.
Proof.
  apply (unpriced_bid_beats_priced_bids sample_env Body.empty _ "1"
           (bid_row sample_env unpriced 4)).
  - vm_compute. right; right; right; left; reflexivity.
  - reflexivity.
Defined.

Lemma rfpId_eq_NULL e p : rfpId_eq e None p = false.
Proof. reflexivity. Qed.

(** X18.  A bid submitted without an rfpId is stored (201) but belongs to
    no RFP, since NULL equals nothing: for every RFP identifier, in a body
    or in a path, the bids of that RFP are the same as before the
    submission, so no winning-bid answer and no evaluation count changes,
    and no evaluation touches the new row. *)
Theorem bid_without_rfp_is_invisible e e' f d :
  foreign_keys d = false ->
  Body.rfpId f = None ->
  let d' := snd (handle e (POST_to bids_url f) d) in
  status (fst (handle e (POST_to bids_url f) d)) = 201
  /\ (forall p, bids_of e' p d' = bids_of e' p d)
  /\ (forall seg g,
        fst (handle e' (GET_from (winning_url seg) g) d')
        = fst (handle e' (GET_from (winning_url seg) g) d))
  /\ (forall g,
        fst (handle e' (POST_to evaluate_url g) d')
        = fst (handle e' (POST_to evaluate_url g) d)
        /\ In (bid_row e f (new_rowid Bid.id (bids d)))
             (rows (bids (snd (handle e' (POST_to evaluate_url g) d'))))).
Proof.
  intros Off Hnone d'.
  assert (B : forall p, bids_of e' p d' = bids_of e' p d).
  { intros p. unfold d'. rewrite handle_submit_bid by exact Off.
    unfold bids_of. cbn [snd select set_bids bids rows].
    rewrite filter_app. cbn [filter bid_row Bid.rfpId]. rewrite Hnone.
    rewrite rfpId_eq_NULL. apply app_nil_r. }
  split; [unfold d'; rewrite handle_submit_bid by exact Off; reflexivity|].
  split; [exact B|]. split.
  - intros seg g. rewrite !handle_winning, !winning_select, B.
    destruct (hd_error _); reflexivity.
  - intros g. rewrite !handle_evaluate. cbv zeta. rewrite B.
    split; [reflexivity|]. cbn [snd set_bids bids rows].
    unfold d'. rewrite handle_submit_bid by exact Off.
    cbn [snd set_bids bids rows]. rewrite map_app. apply in_or_app. right.
    cbn [map bid_row Bid.rfpId]. rewrite Hnone, rfpId_eq_NULL.
    left; reflexivity.
Qed.

Lemma stray_bid_is_invisible :
  let d' := snd (handle sample_env (POST_to bids_url stray) three_bids) in
  status (fst (handle sample_env (POST_to bids_url stray) three_bids)) = 201
  /\ (forall p, bids_of sample_env p d' = bids_of sample_env p three_bids).
Proof.
  destruct (bid_without_rfp_is_invisible sample_env sample_env stray
              three_bids eq_refl eq_refl) as (H1 & H2 & _).
  split; assumption.
Defined.

(** * The claims on sample data, continued *)

Lemma three_bids_are_evaluated :
  let out := handle sample_env (POST_to evaluate_url (offer 0)) three_bids in
  fst out
  = res_json 200
      (Jobject [message "Bids evaluated successfully";
                ("evaluatedBidsCount", Jint 3)])
  /\ map Bid.id (bids_with_rfpId 1 (snd out)) = [1; 2; 3]
  /\ map Bid.status (rows (bids (snd out)))
     = [Some "evaluated"; Some "evaluated"; Some "evaluated"].
Proof.
  destruct (evaluation_counts_and_marks sample_env (offer 0) three_bids 1
              eq_refl) as (H1 & _ & _ & H4 & _).
  split; [exact H1|]. split; [exact H4|reflexivity].
Defined.

Lemma unpriced_bid_is_returned_not_the_lowest :
  exists w,
    handle sample_env (GET_from (winning_url "1") Body.empty) four_bids
    = (res_json 200 (Jobject [("winningBid", Bid.to_json w)]), four_bids)
    /\ In w (bids_of sample_env (TEXT "1") four_bids)
    /\ Bid.amount w = None
    /\ (exists c,
          In c (bids_of sample_env (TEXT "1") four_bids)
          /\ Bid.amount c = Some (50 # 1))
    /\ ~ carries_least_amount w (bids_of sample_env (TEXT "1") four_bids).
Proof.
  exists (bid_row sample_env unpriced 4).
  split; [reflexivity|].
  split; [vm_compute; right; right; right; left; reflexivity|].
  split; [reflexivity|]. split.
  - exists (bid_row sample_env (offer 50) 2).
    split; [vm_compute; right; left; reflexivity|reflexivity].
  - intros (x & Hx & _). discriminate Hx.
Qed.

(** * POST /api/auth/login on the stores the program reaches *)

Lemma text_eq_true a b :
  text_eq a b = true -> exists s, a = Some s /\ b = Some s.
Proof.
  destruct a as [x|], b as [y|]; cbn; try discriminate.
  intros H. apply String.eqb_eq in H. subst y. exists x. split; reflexivity.
Qed.

Lemma filter_none {A} (p : A -> bool) l :
  (forall x, In x l -> p x = false) -> filter p l = [].
Proof.
  induction l as [|a l IH]; intros H; [reflexivity|]. cbn [filter].
  rewrite (H a (or_introl eq_refl)). apply IH.
  intros x Hx. apply H. right; exact Hx.
Qed.

Lemma filter_only {A} (p : A -> bool) l u :
  In u (filter p l) -> (List.length (filter p l) <= 1)%nat ->
  filter p l = [u].
Proof.
  destruct (filter p l) as [|a [|b rest]]; cbn.
  - contradiction.
  - intros [->|[]] _. reflexivity.
  - lia.
Qed.

Lemma select_registered e f d u :
  emails_unique d -> registered_as f d u ->
  select e (SELECT_users_WHERE_email (Body.email f)) d = [u].
Proof.
  intros Huniq (Hin & s & Hf & Hu). cbn [select]. rewrite Hf.
  apply filter_only; [|apply Huniq].
  apply filter_In. split; [exact Hin|].
  rewrite Hu. cbn [text_eq]. apply String.eqb_refl.
Qed.

Lemma select_unregistered e f d :
  (forall u, ~ registered_as f d u) ->
  select e (SELECT_users_WHERE_email (Body.email f)) d = [].
Proof.
  intros Hnone. cbn [select]. apply filter_none. intros u Hin.
  destruct (text_eq (User.email u) (Body.email f)) eqn:E; [|reflexivity].
  apply text_eq_true in E. destruct E as (s & Hu & Hf).
  destruct (Hnone u). split; [exact Hin|]. exists s. split; assumption.
Qed.

(** C5, as amended.  On every store the program reaches from a fresh file:
    a login whose email no stored user holds is answered 401 with
    [{message: 'Invalid credentials'}]; a login that carries a password and
    whose email a stored user holds is decided by [bcrypt.compare] on that
    user's stored hash, answered with the same 401 response when it does not
    accept and with 200 and that user's id when it does.  A login without a
    password whose email a stored user holds is answered 500 with Express's
    error page, so for such requests a registered email is told from an
    unknown one.  The store is unchanged in every case. *)
Theorem login_outcomes e f d :
  reachable d ->
  let req := POST_to login_url f in
  let denied := res_json 401 (Jobject [message "Invalid credentials"]) in
  ((forall u, ~ registered_as f d u) -> handle e req d = (denied, d))
  /\ (forall u pw,
        registered_as f d u -> Body.password f = Some pw ->
        exists h,
          User.password u = Some h
          /\ handle e req d
             = (if compare e pw h
                then res_json 200
                       (Jobject [message "Login successful";
                                 ("userId", Jint (User.id u))])
                else denied,
                d))
  /\ (forall u,
        registered_as f d u -> Body.password f = None ->
        handle e req d
        = ({| status := 500;
              sent := error_page
                        (plain_error "data and hash arguments required") |},
           d)).
Proof.
  intros Hd req denied. unfold req.
  pose proof (reachable_emails_unique d Hd) as Huniq.
  pose proof (reachable_passwords_present d Hd) as Hpp.
  split; [|split].
  - intros Hnone. rewrite handle_login, (select_unregistered e f d Hnone).
    reflexivity.
  - intros u pw Hu Hpw.
    assert (Hh : User.password u <> None)
      by (apply (proj1 (Forall_forall _ _) Hpp), Hu).
    destruct (User.password u) as [h|] eqn:Eh; [|congruence].
    exists h. split; [reflexivity|].
    rewrite handle_login, (select_registered e f d u Huniq Hu).
    cbn [hd_error]. rewrite Hpw, Eh.
    destruct (compare e pw h); reflexivity.
  - intros u Hu Hpw.
    rewrite handle_login, (select_registered e f d u Huniq Hu).
    cbn [hd_error]. rewrite Hpw. reflexivity.
Qed.

Lemma ann_is_registered : registered_as ann ann_registered ann_row.
Proof.
  split; [left; reflexivity|].
  exists "ann@example.com". split; reflexivity.
Qed.

Lemma ann_login_outcomes :
  handle sample_env (POST_to login_url ann) ann_registered
  = (res_json 200
       (Jobject [message "Login successful"; ("userId", Jint 1)]),
     ann_registered)
  /\ handle sample_env (POST_to login_url ann) initDb
     = (res_json 401 (Jobject [message "Invalid credentials"]), initDb).
Proof.
  split.
  - destruct (login_outcomes sample_env ann ann_registered
                (reachable_after sample_env _ initDb reachable_init))
      as (_ & Hknown & _).
    destruct (Hknown ann_row "s3cret" ann_is_registered eq_refl)
      as (h & Hh & E).
    injection Hh as <-. exact E.
  - apply (login_outcomes sample_env ann initDb reachable_init).
    intros u (Hin & _). exact Hin.
Defined.

Lemma missing_password_tells_accounts_apart :
  registered_as ann_without_password ann_registered ann_row
  /\ (forall u, ~ registered_as ann_without_password initDb u)
  /\ fst (handle sample_env (POST_to login_url ann_without_password) initDb)
     = res_json 401 (Jobject [message "Invalid credentials"])
  /\ fst (handle sample_env (POST_to login_url ann_without_password)
            ann_registered)
     = {| status := 500;
          sent := error_page
                    (plain_error "data and hash arguments required") |}
  /\ status (fst (handle sample_env (POST_to login_url ann_without_password)
                    ann_registered)) <> 401.
Proof.
  split.
  { split; [left; reflexivity|].
    exists "ann@example.com". split; reflexivity. }
  split; [intros u (Hin & _); exact Hin|].
  split; [reflexivity|]. split; [reflexivity|discriminate].
Qed.
